(** * weather-bq-extended: the query and aggregation core of [server.py]

    A shallow embedding of [src/mcp-weather-bq/server.py]: the three unit
    converters, the four tools ([resolve_city], [range_weather_summary],
    [yearly_max_temp], [daily_weather_series]) and the SQL statements they
    submit to BigQuery, each statement carried with its text (as the source
    writes it) and its meaning over the two tables it reads.

    Conventions of the model.
    - Module [Binary64] has the three converters on IEEE binary64, the
      arithmetic Python runs them in; what is proved of the converters as
      such is proved there.
    - In the tables and in the tools a reading ([FLOAT64], Python [float])
      is an exact rational ([Qc]) and the decimal literals of the source
      ([9999.9], [99.99], [999.9], [25.4], [1.852]) are the rationals they
      spell.  The properties stated of the tools are about which rows are
      read, which fields are present and which reading a field converts;
      none of them rests on arithmetic being exact (no regrouping, no
      strict order or injectivity of a converter, no reordering of a sum).
    - A text is a string of bytes.  [UPPER] and [LIKE] are modelled on
      ASCII text, where a byte is a character: which station names a city
      text matches is stated for ASCII texts.
    - SQL [NULL] and Python [None] are [None : option _].
    - A tool is a computation in the monad [M]: it reads the dataset, logs
      every statement it submits, and either returns or fails with the
      exception the BigQuery client raises. *)

From Stdlib Require Import Ascii QArith Qcanon Field.
From Stdlib Require PrimFloat FloatOps FloatAxioms.
From stdpp Require Import numbers base option list sorting gmap strings.

Local Open Scope Z_scope.

(** ** Numbers *)

(** The decimal literal [n / d], in lowest terms. *)
Definition dec (n : Z) (d : positive) : Qc := Q2Qc (n # d).

(** Sentinels of the GSOD tables, as the source spells them. *)
Definition TEMP_SENTINEL : Qc := dec 99999 10.   (* 9999.9 *)
Definition PRCP_SENTINEL : Qc := dec 9999 100.   (* 99.99  *)
Definition WDSP_SENTINEL : Qc := dec 9999 10.    (* 999.9  *)

(** ** Unit converters (server.py, lines 27-42) *)

Definition f_to_c (v : option Qc) : option Qc :=
  match v with
  | None => None
  | Some v => Some ((v - dec 32 1) * dec 5 1 / dec 9 1)%Qc
  end.

Definition inches_to_mm (v : option Qc) : option Qc :=
  match v with
  | None => None
  | Some v => Some (v * dec 254 10)%Qc
  end.

Definition knots_to_kmh (v : option Qc) : option Qc :=
  match v with
  | None => None
  | Some v => Some (v * dec 1852 1000)%Qc
  end.

(** The three functions on IEEE binary64, as Python runs them: every
    operation rounds, and a decimal literal is the nearest binary64 number. *)
#[local] Set Warnings "-inexact-float".

Module Binary64.
Import PrimFloat.

Definition f_to_c (v : option float) : option float :=
  match v with
  | None => None
  | Some v => Some ((v - 32.0) * 5.0 / 9.0)%float
  end.

Definition inches_to_mm (v : option float) : option float :=
  match v with
  | None => None
  | Some v => Some (v * 25.4)%float
  end.

Definition knots_to_kmh (v : option float) : option float :=
  match v with
  | None => None
  | Some v => Some (v * 1.852)%float
  end.
End Binary64.

(** ** Calendar dates

    The [DATE] column of the observation table, the value of a [DATE] bind
    parameter once BigQuery has read it, and Python's [datetime.date]. *)

Record date := Date { d_year : Z; d_month : Z; d_day : Z }.

#[global] Instance date_eq_dec : EqDecision date.
Proof. solve_decision. Defined.

Definition date_lt (a b : date) : Prop :=
  d_year a < d_year b ∨
  (d_year a = d_year b ∧
   (d_month a < d_month b ∨ (d_month a = d_month b ∧ d_day a < d_day b))).

Definition date_le (a b : date) : Prop :=
  d_year a < d_year b ∨
  (d_year a = d_year b ∧
   (d_month a < d_month b ∨ (d_month a = d_month b ∧ d_day a ≤ d_day b))).

#[global] Instance date_lt_dec : RelDecision date_lt.
Proof. intros a b. unfold date_lt. apply _. Defined.

#[global] Instance date_le_dec : RelDecision date_le.
Proof. intros a b. unfold date_le. apply _. Defined.

Definition is_leap (y : Z) : bool :=
  (y mod 4 =? 0) && (negb (y mod 100 =? 0) || (y mod 400 =? 0)).

Definition days_in_month (y m : Z) : Z :=
  match m with
  | 1 | 3 | 5 | 7 | 8 | 10 | 12 => 31
  | 4 | 6 | 9 | 11 => 30
  | 2 => if is_leap y then 29 else 28
  | _ => 0
  end.

(** BigQuery's [DATE] range is 0001-01-01 .. 9999-12-31, as is Python's. *)
Definition valid_date (d : date) : bool :=
  (1 <=? d_year d) && (d_year d <=? 9999) &&
  (1 <=? d_month d) && (d_month d <=? 12) &&
  (1 <=? d_day d) && (d_day d <=? days_in_month (d_year d) (d_month d)).

(** Decimal digits are the characters 48 .. 57. *)
Definition digit_of_ascii (c : ascii) : option Z :=
  let n := Z.of_nat (nat_of_ascii c) in
  if (48 <=? n) && (n <=? 57) then Some (n - 48) else None.

Definition ascii_of_digit (n : Z) : ascii := ascii_of_nat (Z.to_nat (48 + n)).

(** One or two leading decimal digits, and the text after them. *)
Definition read_1_or_2 (s : string) : option (Z * string) :=
  match s with
  | EmptyString => None
  | String a rest =>
      x ← digit_of_ascii a;
      match rest with
      | EmptyString => Some (x, rest)
      | String b rest' =>
          match digit_of_ascii b with
          | Some y => Some (10 * x + y, rest')
          | None => Some (x, rest)
          end
      end
  end.

(** BigQuery's reading of a date text, [YYYY-[M]M-[D]D]; [None] for any
    other text and for a text that names no calendar day. *)
Definition parse_date (s : string) : option date :=
  match s with
  | String y1 (String y2 (String y3 (String y4 (String "-" rest)))) =>
      a ← digit_of_ascii y1; b ← digit_of_ascii y2;
      c ← digit_of_ascii y3; e ← digit_of_ascii y4;
      '(m, rest) ← read_1_or_2 rest;
      match rest with
      | String "-" rest =>
          '(d, rest) ← read_1_or_2 rest;
          match rest with
          | EmptyString =>
              let day := Date (1000 * a + 100 * b + 10 * c + e) m d in
              if valid_date day then Some day else None
          | String _ _ => None
          end
      | _ => None
      end
  | _ => None
  end.

(** [str(d)] for a [datetime.date]: [%04d-%02d-%02d]. *)
Definition pad2 (n : Z) (rest : string) : string :=
  String (ascii_of_digit (n / 10)) (String (ascii_of_digit (n mod 10)) rest).

Definition pad4 (n : Z) (rest : string) : string :=
  String (ascii_of_digit (n / 1000))
    (String (ascii_of_digit (n / 100 mod 10)) (pad2 (n mod 100) rest)).

Definition date_str (d : date) : string :=
  pad4 (d_year d) (String "-" (pad2 (d_month d) (String "-" (pad2 (d_day d) "")))).

(** ** The two tables of [bigquery-public-data.noaa_gsod] *)

Definition DATASET_TABLE : string := "bigquery-public-data.noaa_gsod.gsod*".
Definition STATIONS_TABLE : string := "bigquery-public-data.noaa_gsod.stations".

(** A row of the station directory. *)
Module Stations.
Record row := Row {
  stn : string;
  wban : string;
  name : option string;
  country : option string;
  lat : option Qc;
  lon : option Qc
}.
End Stations.

(** A row of the daily observations: one station-day. *)
Module Gsod.
Record row := Row {
  stn : string;
  wban : string;
  date : date;
  temp : option Qc;
  max : option Qc;
  min : option Qc;
  prcp : option Qc;
  wdsp : option Qc
}.
End Gsod.

Record Dataset := {
  stations : list Stations.row;
  gsod : list Gsod.row
}.

(** ** SQL expressions

    Comparisons are three-valued: a comparison with [NULL] is [NULL]
    ([None]), and [WHERE] keeps a row only when its condition is [TRUE]. *)

Definition sql_eq `{EqDecision A} (a b : option A) : option bool :=
  x ← a; y ← b; Some (bool_decide (x = y)).

Definition sql_ne `{EqDecision A} (a b : option A) : option bool :=
  x ← a; y ← b; Some (bool_decide (x ≠ y)).

Definition sql_lt (a b : option Qc) : option bool :=
  x ← a; y ← b; Some (bool_decide (x < y)%Qc).

Definition sql_and (a b : option bool) : option bool :=
  match a, b with
  | Some false, _ | _, Some false => Some false
  | Some true, Some true => Some true
  | _, _ => None
  end.

Definition sql_between (d lo hi : date) : option bool :=
  Some (bool_decide (date_le lo d ∧ date_le d hi)).

(** [IF(c, t, e)]: [t] when [c] is [TRUE], [e] when it is [FALSE] or [NULL]. *)
Definition sql_if {A} (c : option bool) (t e : A) : A :=
  match c with Some true => t | _ => e end.

Definition sql_where {A} (c : A → option bool) (l : list A) : list A :=
  filter (λ r, c r = Some true) l.

(** [UPPER] on ASCII text: the letters a-z are mapped, every other byte is
    left as it is.  (BigQuery's [UPPER] also maps the letters outside
    ASCII.) *)
Definition upper_ascii (c : ascii) : ascii :=
  let n := nat_of_ascii c in
  if (97 <=? n)%nat && (n <=? 122)%nat then ascii_of_nat (n - 32) else c.

Fixpoint sql_upper (s : string) : string :=
  match s with
  | EmptyString => EmptyString
  | String c s' => String (upper_ascii c) (sql_upper s')
  end.

(** [s LIKE p]: in the pattern [%] stands for any run of characters, [_] for
    any one character, and a backslash makes the next character literal; a
    character is a byte, as in ASCII text.
    (BigQuery rejects a pattern that ends in a lone backslash; the patterns
    of this program end in [%], so that branch is never taken.) *)
Fixpoint sql_like (p s : string) : bool :=
  match p with
  | EmptyString => match s with EmptyString => true | _ => false end
  | String c p' =>
      if Ascii.eqb c "%" then
        (fix any (s : string) : bool :=
           sql_like p' s ||
           match s with EmptyString => false | String _ s' => any s' end) s
      else if Ascii.eqb c "_" then
        match s with EmptyString => false | String _ s' => sql_like p' s' end
      else if Ascii.eqb c "\" then
        match p' with
        | EmptyString => false
        | String c2 p'' =>
            match s with
            | EmptyString => false
            | String c' s' => Ascii.eqb c2 c' && sql_like p'' s'
            end
        end
      else
        match s with
        | EmptyString => false
        | String c' s' => Ascii.eqb c c' && sql_like p' s'
        end
  end.

Definition sql_like_null (s : option string) (p : string) : option bool :=
  x ← s; Some (sql_like p x).

(** Aggregates skip [NULL] inputs and are [NULL] over no input at all. *)
Definition non_null {A} (l : list (option A)) : list A := omap id l.

Definition qc_min (a b : Qc) : Qc := if decide (a ≤ b)%Qc then a else b.
Definition qc_max (a b : Qc) : Qc := if decide (a ≤ b)%Qc then b else a.
Definition qc_sum (l : list Qc) : Qc := foldr Qcplus (Q2Qc 0) l.

Definition sql_min (l : list (option Qc)) : option Qc :=
  match non_null l with
  | [] => None
  | x :: xs => Some (foldr qc_min x xs)
  end.

Definition sql_max (l : list (option Qc)) : option Qc :=
  match non_null l with
  | [] => None
  | x :: xs => Some (foldr qc_max x xs)
  end.

Definition sql_sum (l : list (option Qc)) : option Qc :=
  match non_null l with
  | [] => None
  | xs => Some (qc_sum xs)
  end.

Definition sql_avg (l : list (option Qc)) : option Qc :=
  match non_null l with
  | [] => None
  | xs => Some (qc_sum xs / Q2Qc (inject_Z (Z.of_nat (length xs))))%Qc
  end.

(** [ORDER BY] keys: [NULL] sorts first in ascending order. *)
Definition null_first {A} (R : relation A) : relation (option A) :=
  λ a b, match a, b with
         | None, _ => True
         | Some _, None => False
         | Some x, Some y => R x y
         end.

#[global] Instance null_first_dec {A} (R : relation A) `{!RelDecision R} :
  RelDecision (null_first R).
Proof. intros [x|] [y|]; simpl; apply _. Defined.

(** ** The BigQuery client *)

Inductive param_type := STRING | DATE | INT64.

Inductive param_value := PStr (s : string) | PInt (n : Z).

(** [bigquery.ScalarQueryParameter(name, type_, value)] *)
Record ScalarQueryParameter := Param {
  p_name : string;
  p_type : param_type;
  p_value : param_value
}.

(** What the client raises when BigQuery refuses or fails a job. *)
Inductive failure := BadRequest (diag : string).

Inductive result (A : Type) := Ok (a : A) | Raise (e : failure).
Arguments Ok {A} a.
Arguments Raise {A} e.

#[global] Instance result_ret : MRet result := @Ok.
#[global] Instance result_bind : MBind result := λ A B f m,
  match m with Ok a => f a | Raise e => Raise e end.
#[global] Instance result_fmap : FMap result := λ A B f m,
  match m with Ok a => Ok (f a) | Raise e => Raise e end.

Definition find_param (n : string) (ps : list ScalarQueryParameter)
  : result ScalarQueryParameter :=
  match list_find (λ p, p_name p = n) ps with
  | Some (_, p) => Ok p
  | None => Raise (BadRequest ("Query parameter not found: " +:+ n))
  end.

Definition string_param (n : string) (ps : list ScalarQueryParameter) : result string :=
  p ← find_param n ps;
  match p_type p, p_value p with
  | STRING, PStr s => Ok s
  | _, _ => Raise (BadRequest ("Invalid STRING parameter: " +:+ n))
  end.

(** The string bound to a [DATE] parameter is sent as it is; BigQuery reads
    it, and fails the job when it is not a date. *)
Definition read_date (s : string) : result date :=
  match parse_date s with
  | Some d => Ok d
  | None => Raise (BadRequest ("Invalid date: " +:+ s))
  end.

Definition date_param (n : string) (ps : list ScalarQueryParameter) : result date :=
  p ← find_param n ps;
  match p_type p, p_value p with
  | DATE, PStr s => read_date s
  | _, _ => Raise (BadRequest ("Invalid DATE parameter: " +:+ n))
  end.

(** The Python [int] bound to an [INT64] parameter is sent as its decimal
    text, whatever its size; BigQuery fails the job when the number does
    not fit 64 bits. *)
Definition INT64_MIN : Z := - 2 ^ 63.
Definition INT64_MAX : Z := 2 ^ 63 - 1.

Definition is_int64 (z : Z) : bool := (INT64_MIN <=? z) && (z <=? INT64_MAX).

Definition int_param (n : string) (ps : list ScalarQueryParameter) : result Z :=
  p ← find_param n ps;
  match p_type p, p_value p with
  | INT64, PInt z =>
      if is_int64 z then Ok z
      else Raise (BadRequest ("Value out of range for INT64: " +:+ n))
  | _, _ => Raise (BadRequest ("Invalid INT64 parameter: " +:+ n))
  end.

(** A statement the program submits: its text, and what BigQuery answers to
    it over a dataset, given the bind parameters. *)
Record Statement (R : Type) := {
  sql : string;
  denote : Dataset → list ScalarQueryParameter → result (list R)
}.
Arguments sql {R} _.
Arguments denote {R} _ _ _.

(** One call of [bq_client.query]. *)
Record Issued := {
  sent_text : string;
  sent_params : list ScalarQueryParameter
}.

(** A tool run: the dataset it reads, the statements it submitted, and its
    return value or the exception it let through. *)
Definition M (A : Type) : Type := Dataset → list Issued * result A.

#[global] Instance M_ret : MRet M := λ A a _, ([], Ok a).
#[global] Instance M_bind : MBind M := λ A B f m db,
  match m db with
  | (log, Ok a) => let '(log', r) := f a db in (log ++ log', r)
  | (log, Raise e) => (log, Raise e)
  end.

(** [list(bq_client.query(query, job_config=QueryJobConfig(query_parameters=params)))] *)
Definition bq_query {R} (st : Statement R) (params : list ScalarQueryParameter)
  : M (list R) :=
  λ db, ([ {| sent_text := sql st; sent_params := params |} ], denote st db params).

Definition issued {A} (run : list Issued * result A) : list Issued := run.1.
Definition outcome {A} (run : list Issued * result A) : result A := run.2.

(** ** The statements of [server.py] *)

(** *** [resolve_city] (lines 60-73) *)

Definition country_filter (with_country : bool) : string :=
  if with_country then "AND country = @country" else "".

Definition resolve_city_sql (with_country : bool) : string :=
"
    SELECT
      stn,
      wban,
      name,
      country,
      lat,
      lon
    FROM `" +:+ STATIONS_TABLE +:+ "`
    WHERE UPPER(name) LIKE CONCAT('%', UPPER(@city), '%')
      " +:+ country_filter with_country +:+ "
    ORDER BY name
    LIMIT 1
    ".

Definition name_le : relation Stations.row :=
  λ a b, null_first String.le (Stations.name a) (Stations.name b).

#[global] Instance name_le_dec : RelDecision name_le.
Proof. intros a b. unfold name_le. apply _. Defined.

Definition city_matches (city : string) (country : option string)
  (r : Stations.row) : option bool :=
  let like := sql_like_null (sql_upper <$> Stations.name r)
                            ("%" +:+ sql_upper city +:+ "%") in
  match country with
  | None => like
  | Some c => sql_and like (sql_eq (Stations.country r) (Some c))
  end.

Definition resolve_city_rows (with_country : bool) (db : Dataset)
  (ps : list ScalarQueryParameter) : result (list Stations.row) :=
  city ← string_param "city" ps;
  country ← (if with_country then Some <$> string_param "country" ps
             else Ok None);
  Ok (take 1 (merge_sort name_le
                (sql_where (city_matches city country) (stations db)))).

Definition resolve_city_stmt (with_country : bool) : Statement Stations.row :=
  {| sql := resolve_city_sql with_country;
     denote := resolve_city_rows with_country |}.

(** *** The row filter shared by [range_weather_summary] and
    [daily_weather_series]:
    [stn = @stn AND wban = @wban AND date BETWEEN @start_date AND @end_date
     AND temp != 9999.9] *)

Definition in_range (stn wban : string) (lo hi : date) (r : Gsod.row) : option bool :=
  sql_and (sql_eq (Some (Gsod.stn r)) (Some stn))
    (sql_and (sql_eq (Some (Gsod.wban r)) (Some wban))
       (sql_and (sql_between (Gsod.date r) lo hi)
          (sql_ne (Gsod.temp r) (Some TEMP_SENTINEL)))).

(** *** [range_weather_summary] (lines 111-123) *)

Definition range_summary_sql : string :=
"
    SELECT
      MIN(temp) AS temp_min_f,
      MAX(temp) AS temp_max_f,
      AVG(temp) AS temp_mean_f,
      SUM(IF(prcp < 99.99, prcp, 0)) AS prcp_sum_in,
      AVG(IF(wdsp < 999.9, wdsp, NULL)) AS wind_mean_knots
    FROM `" +:+ DATASET_TABLE +:+ "`
    WHERE stn = @stn
      AND wban = @wban
      AND date BETWEEN @start_date AND @end_date
      AND temp != 9999.9
    ".

Record SummaryRow := {
  temp_min_f : option Qc;
  temp_max_f : option Qc;
  temp_mean_f : option Qc;
  prcp_sum_in : option Qc;
  wind_mean_knots : option Qc
}.

(** [IF(prcp < 99.99, prcp, 0)] and [IF(wdsp < 999.9, wdsp, NULL)] *)
Definition prcp_or_zero (r : Gsod.row) : option Qc :=
  sql_if (sql_lt (Gsod.prcp r) (Some PRCP_SENTINEL)) (Gsod.prcp r) (Some (Q2Qc 0)).

Definition wdsp_or_null (r : Gsod.row) : option Qc :=
  sql_if (sql_lt (Gsod.wdsp r) (Some WDSP_SENTINEL)) (Gsod.wdsp r) None.

(** The select list is all aggregates and there is no [GROUP BY]: the
    answer is one row whatever the filter keeps, with [NULL] aggregates
    when it keeps nothing. *)
Definition aggregate (rows : list Gsod.row) : SummaryRow :=
  {| temp_min_f := sql_min (Gsod.temp <$> rows);
     temp_max_f := sql_max (Gsod.temp <$> rows);
     temp_mean_f := sql_avg (Gsod.temp <$> rows);
     prcp_sum_in := sql_sum (prcp_or_zero <$> rows);
     wind_mean_knots := sql_avg (wdsp_or_null <$> rows) |}.

Definition range_summary_rows (db : Dataset) (ps : list ScalarQueryParameter)
  : result (list SummaryRow) :=
  stn ← string_param "stn" ps;
  wban ← string_param "wban" ps;
  lo ← date_param "start_date" ps;
  hi ← date_param "end_date" ps;
  Ok [aggregate (sql_where (in_range stn wban lo hi) (gsod db))].

Definition range_summary_stmt : Statement SummaryRow :=
  {| sql := range_summary_sql; denote := range_summary_rows |}.

(** *** [yearly_max_temp] (lines 168-179) *)

Definition yearly_max_sql : string :=
"
    SELECT
      date,
      max AS max_temp_f
    FROM `" +:+ DATASET_TABLE +:+ "`
    WHERE stn = @stn
      AND wban = @wban
      AND EXTRACT(YEAR FROM date) = @year
      AND max != 9999.9
    ORDER BY max_temp_f DESC
    LIMIT 1
    ".

Record HottestRow := {
  hot_date : date;
  max_temp_f : option Qc
}.

Definition in_year (stn wban : string) (year : Z) (r : Gsod.row) : option bool :=
  sql_and (sql_eq (Some (Gsod.stn r)) (Some stn))
    (sql_and (sql_eq (Some (Gsod.wban r)) (Some wban))
       (sql_and (sql_eq (Some (d_year (Gsod.date r))) (Some year))
          (sql_ne (Gsod.max r) (Some TEMP_SENTINEL)))).

(** [ORDER BY max_temp_f DESC] *)
Definition hotter_first : relation Gsod.row :=
  λ a b, null_first Qcle (Gsod.max b) (Gsod.max a).

#[global] Instance hotter_first_dec : RelDecision hotter_first.
Proof. intros a b. unfold hotter_first. apply _. Defined.

Definition yearly_max_rows (db : Dataset) (ps : list ScalarQueryParameter)
  : result (list HottestRow) :=
  stn ← string_param "stn" ps;
  wban ← string_param "wban" ps;
  year ← int_param "year" ps;
  Ok ((λ r, {| hot_date := Gsod.date r; max_temp_f := Gsod.max r |}) <$>
      take 1 (merge_sort hotter_first
                (sql_where (in_year stn wban year) (gsod db)))).

Definition yearly_max_stmt : Statement HottestRow :=
  {| sql := yearly_max_sql; denote := yearly_max_rows |}.

(** *** [daily_weather_series] (lines 223-237) *)

Definition daily_series_sql : string :=
"
    SELECT
      date,
      temp,
      max,
      min,
      prcp,
      wdsp
    FROM `" +:+ DATASET_TABLE +:+ "`
    WHERE stn = @stn
      AND wban = @wban
      AND date BETWEEN @start_date AND @end_date
      AND temp != 9999.9
    ORDER BY date
    ".

(** [ORDER BY date] *)
Definition by_date : relation Gsod.row :=
  λ a b, date_le (Gsod.date a) (Gsod.date b).

#[global] Instance by_date_dec : RelDecision by_date.
Proof. intros a b. unfold by_date. apply _. Defined.

(** The answer rows carry the six selected columns; they are kept here as
    observation rows (the tool reads no other column of them). *)
Definition daily_series_rows (db : Dataset) (ps : list ScalarQueryParameter)
  : result (list Gsod.row) :=
  stn ← string_param "stn" ps;
  wban ← string_param "wban" ps;
  lo ← date_param "start_date" ps;
  hi ← date_param "end_date" ps;
  Ok (merge_sort by_date (sql_where (in_range stn wban lo hi) (gsod db))).

Definition daily_series_stmt : Statement Gsod.row :=
  {| sql := daily_series_sql; denote := daily_series_rows |}.

(** ** The tools *)

(** A returned dict with a ["found"] key: [{"found": True, ...}] or
    [{"found": False, "reason": ...}]. *)
Inductive Reply (A : Type) := Found (a : A) | NotFound (reason : string).
Arguments Found {A} a.
Arguments NotFound {A} reason.

(** Python truthiness of an [Optional[str]] and of an [Optional[List[str]]]. *)
Definition truthy_str (s : option string) : bool :=
  match s with
  | None => false
  | Some s => bool_decide (s ≠ "")
  end.

Definition truthy_list {A} (l : option (list A)) : bool :=
  match l with
  | None | Some [] => false
  | Some (_ :: _) => true
  end.

(** *** [resolve_city] (lines 45-92) *)

Module City.
Record t := {
  stn : string;
  wban : string;
  name : option string;
  country : option string;
  lat : option Qc;
  lon : option Qc
}.
End City.

Definition resolve_city (city : string) (country_code : option string)
  : M (Reply City.t) :=
  let params := [Param "city" STRING (PStr city)] in
  let params :=
    if truthy_str country_code
    then params ++ [Param "country" STRING (PStr (default "" country_code))]
    else params in
  rows ← bq_query (resolve_city_stmt (truthy_str country_code)) params;
  match rows with
  | [] => mret (NotFound "No station for that city")
  | row :: _ =>
      mret (Found {| City.stn := Stations.stn row;
                     City.wban := Stations.wban row;
                     City.name := Stations.name row;
                     City.country := Stations.country row;
                     City.lat := Stations.lat row;
                     City.lon := Stations.lon row |})
  end.

(** *** [range_weather_summary] (lines 95-159) *)

Record Temperature := { min_c : option Qc; max_c : option Qc; mean_c : option Qc }.
Record Rainfall := { total_mm : option Qc }.
Record Wind := { mean_kmh : option Qc }.

Module RangeSummary.
Record t := {
  stn : string;
  wban : string;
  start_date : string;
  end_date : string;
  temperature : Temperature;
  rainfall : Rainfall;
  wind : Wind
}.
End RangeSummary.

Definition range_params (stn wban start_date end_date : string)
  : list ScalarQueryParameter :=
  [ Param "stn" STRING (PStr stn);
    Param "wban" STRING (PStr wban);
    Param "start_date" DATE (PStr start_date);
    Param "end_date" DATE (PStr end_date) ].

Definition range_weather_summary (stn wban start_date end_date : string)
  : M (Reply RangeSummary.t) :=
  rows ← bq_query range_summary_stmt (range_params stn wban start_date end_date);
  match rows with
  | [] => mret (NotFound "No data in that range")
  | row :: _ =>
      mret (Found
        {| RangeSummary.stn := stn;
           RangeSummary.wban := wban;
           RangeSummary.start_date := start_date;
           RangeSummary.end_date := end_date;
           RangeSummary.temperature :=
             {| min_c := f_to_c (temp_min_f row);
                max_c := f_to_c (temp_max_f row);
                mean_c := f_to_c (temp_mean_f row) |};
           RangeSummary.rainfall :=
             {| total_mm := inches_to_mm (prcp_sum_in row) |};
           RangeSummary.wind :=
             {| mean_kmh := knots_to_kmh (wind_mean_knots row) |} |})
  end.

(** *** [yearly_max_temp] (lines 162-203) *)

Module Hottest.
Record t := {
  stn : string;
  wban : string;
  year : Z;
  date : string;
  max_c : option Qc
}.
End Hottest.

Definition yearly_max_temp (stn wban : string) (year : Z) : M (Reply Hottest.t) :=
  rows ← bq_query yearly_max_stmt
           [ Param "stn" STRING (PStr stn);
             Param "wban" STRING (PStr wban);
             Param "year" INT64 (PInt year) ];
  match rows with
  | [] => mret (NotFound "No data for that year")
  | row :: _ =>
      mret (Found {| Hottest.stn := stn;
                     Hottest.wban := wban;
                     Hottest.year := year;
                     Hottest.date := date_str (hot_date row);
                     Hottest.max_c := f_to_c (max_temp_f row) |})
  end.

(** *** [daily_weather_series] (lines 206-274) *)

(** The values of an entry of the series. *)
Inductive json := JStr (s : string) | JNum (x : Qc) | JNull.

#[global] Instance json_eq_dec : EqDecision json.
Proof. solve_decision. Defined.

Definition json_of_float (v : option Qc) : json :=
  match v with Some x => JNum x | None => JNull end.

(** [row[col] != 9999.9] in Python: true of [None]. *)
Definition py_ne (v : option Qc) (c : Qc) : bool := bool_decide (v ≠ Some c).

(** [row[col] is not None and row[col] < c] *)
Definition py_below (v : option Qc) (c : Qc) : bool :=
  match v with
  | None => false
  | Some x => bool_decide (x < c)%Qc
  end.

(** [k in metrics] *)
Definition asks (k : string) (metrics : list string) : bool :=
  bool_decide (k ∈ metrics).

(** The body of the loop over the answer rows: one entry per row. *)
Definition series_item (metrics : list string) (row : Gsod.row)
  : gmap string json :=
  let item : gmap string json := {[ "date" := JStr (date_str (Gsod.date row)) ]} in
  let item :=
    if asks "temp_mean_c" metrics
    then <["temp_mean_c" := json_of_float (f_to_c (Gsod.temp row))]> item
    else item in
  let item :=
    if asks "temp_max_c" metrics && py_ne (Gsod.max row) TEMP_SENTINEL
    then <["temp_max_c" := json_of_float (f_to_c (Gsod.max row))]> item
    else item in
  let item :=
    if asks "temp_min_c" metrics && py_ne (Gsod.min row) TEMP_SENTINEL
    then <["temp_min_c" := json_of_float (f_to_c (Gsod.min row))]> item
    else item in
  let item :=
    if asks "rain_mm" metrics && py_below (Gsod.prcp row) PRCP_SENTINEL
    then <["rain_mm" := json_of_float (inches_to_mm (Gsod.prcp row))]> item
    else item in
  let item :=
    if asks "wind_kmh" metrics && py_below (Gsod.wdsp row) WDSP_SENTINEL
    then <["wind_kmh" := json_of_float (knots_to_kmh (Gsod.wdsp row))]> item
    else item in
  item.

Module Series.
Record t := {
  stn : string;
  wban : string;
  start_date : string;
  end_date : string;
  metrics : list string;
  data : list (gmap string json)
}.
End Series.

#[global] Instance series_eq_dec : EqDecision Series.t.
Proof. solve_decision. Defined.

Definition daily_weather_series (stn wban start_date end_date : string)
  (metrics : option (list string)) : M Series.t :=
  let metrics := if truthy_list metrics then default [] metrics
                 else ["temp_mean_c"] in
  rows ← bq_query daily_series_stmt (range_params stn wban start_date end_date);
  let series := series_item metrics <$> rows in
  mret {| Series.stn := stn;
          Series.wban := wban;
          Series.start_date := start_date;
          Series.end_date := end_date;
          Series.metrics := metrics;
          Series.data := series |}.

(** ** Loading [server.py]

    Importing the module runs its top-level statements in order.  A
    statement first evaluates some names (for a [def]: its decorators, its
    default values and its parameter and return annotations, which Python
    evaluates when the [def] runs since no [from __future__ import
    annotations] is in force; never the names of its body) and then binds
    the names it defines.  A name that is neither bound so far nor a builtin
    raises [NameError].  Only name resolution is modelled: every call a
    statement makes (reading the key file, creating the client) is taken to
    succeed. *)
Module Loader.

Record stmt := Stmt {
  line : nat;             (* where the statement starts in server.py *)
  uses : list string;     (* names evaluated when the statement runs *)
  binds : list string;    (* names bound once it has run *)
  serves : bool           (* does it start serving tool calls? *)
}.

Definition builtins : list string :=
  ["__file__"; "__name__"; "open"; "str"; "int"; "float"; "dict"; "list"; "None"].

Definition server_py : list stmt :=
  [ Stmt 1 [] ["os"] false;                                   (* import os *)
    Stmt 2 [] ["json"] false;                                 (* import json *)
    Stmt 3 [] ["bigquery"] false;        (* from google.cloud import bigquery *)
    Stmt 4 [] ["service_account"] false;
    Stmt 5 [] ["FastMCP"] false;
    Stmt 6 [] ["Optional"] false;              (* from typing import Optional *)
    Stmt 11 ["FastMCP"] ["mcp"] false;
    Stmt 14 ["os"; "__file__"] ["KEY_PATH"] false;
    Stmt 16 ["open"; "KEY_PATH"; "json"] ["f"; "info"] false;
    Stmt 19 ["service_account"; "info"] ["creds"] false;
    Stmt 20 ["bigquery"; "creds"; "info"] ["bq_client"] false;
    Stmt 23 [] ["DATASET_TABLE"] false;
    Stmt 24 [] ["STATIONS_TABLE"] false;
    Stmt 27 ["Optional"; "float"] ["f_to_c"] false;
    Stmt 33 ["Optional"; "float"] ["inches_to_mm"] false;
    Stmt 39 ["Optional"; "float"] ["knots_to_kmh"] false;
    Stmt 45 ["mcp"; "None"; "str"; "Optional"; "dict"] ["resolve_city"] false;
    Stmt 95 ["mcp"; "str"; "dict"] ["range_weather_summary"] false;
    Stmt 162 ["mcp"; "str"; "int"; "dict"] ["yearly_max_temp"] false;
    Stmt 206 ["mcp"; "None"; "str"; "Optional"; "List"; "dict"]
             ["daily_weather_series"] false;
    Stmt 277 ["__name__"; "mcp"] [] true ].      (* ...: mcp.run() *)

Inductive loaded :=
| Imported (env : list string) (serving : bool)
| NameError (at_line : nat) (unbound : string) (serving : bool).

Fixpoint load (env : list string) (serving : bool) (prog : list stmt) : loaded :=
  match prog with
  | [] => Imported env serving
  | s :: rest =>
      match list_find (λ n, n ∉ env) (uses s) with
      | Some (_, n) => NameError (line s) n serving
      | None => load (binds s ++ env) (serving || serves s) rest
      end
  end.

Definition import_server : loaded := load builtins false server_py.

End Loader.

(** ** A sample dataset

    The station and the three days of the specification's end-to-end
    scenario (temperatures 32, 50 and 212 °F, the precipitation sentinel on
    the second day), a day without a mean temperature, and two more
    stations for the resolver. *)
Module Sample.

Definition obs (d : Z) (t mx mn p w : option Qc) : Gsod.row :=
  {| Gsod.stn := "037720"; Gsod.wban := "99999"; Gsod.date := Date 2020 1 d;
     Gsod.temp := t; Gsod.max := mx; Gsod.min := mn;
     Gsod.prcp := p; Gsod.wdsp := w |}.

Definition station (s w n c : string) : Stations.row :=
  {| Stations.stn := s; Stations.wban := w;
     Stations.name := Some n; Stations.country := Some c;
     Stations.lat := None; Stations.lon := None |}.

Definition london : Stations.row := station "037720" "99999" "LONDON" "UK".
Definition east_london : Stations.row :=
  station "688580" "99999" "East London" "SF".

(** A day with rain and wind readings and no mean temperature. *)
Definition no_temp : Gsod.row :=
  obs 4 (Some (dec 99999 10)) (Some (dec 60 1)) (Some (dec 40 1))
        (Some (dec 3 10)) (Some (dec 7 1)).

Definition db : Dataset :=
  {| stations :=
       [ station "725300" "94846" "NEW LONDON" "US";
         london;
         east_london ];
     gsod :=
       [ obs 3 (Some (dec 212 1)) (Some (dec 2150 10)) (Some (dec 99999 10))
               (Some (dec 1 10)) (Some (dec 5 1));
         obs 1 (Some (dec 32 1)) None (Some (dec 30 1))
               (Some (dec 2 10)) (Some (dec 9999 10));
         no_temp;
         obs 2 (Some (dec 50 1)) (Some (dec 55 1)) (Some (dec 45 1))
               (Some (dec 9999 100)) None ] |}.

(** The same station with no valid precipitation reading at all. *)
Definition dry : Dataset :=
  {| stations := [];
     gsod :=
       [ obs 1 (Some (dec 32 1)) (Some (dec 40 1)) (Some (dec 30 1))
               (Some (dec 9999 100)) (Some (dec 5 1));
         obs 2 (Some (dec 50 1)) (Some (dec 55 1)) (Some (dec 45 1))
               None (Some (dec 6 1)) ] |}.

Definition empty : Dataset := {| stations := []; gsod := [] |}.

(** January 2020 of the sample station, rain only: the second day has the
    precipitation sentinel, the fourth no mean temperature. *)
Definition rain_series : Series.t :=
  {| Series.stn := "037720"; Series.wban := "99999";
     Series.start_date := "2020-01-01"; Series.end_date := "2020-01-31";
     Series.metrics := ["rain_mm"];
     Series.data :=
       [ <["rain_mm" := JNum (dec 508 100)]> {[ "date" := JStr "2020-01-01" ]};
         {[ "date" := JStr "2020-01-02" ]};
         <["rain_mm" := JNum (dec 254 100)]> {[ "date" := JStr "2020-01-03" ]} ] |}.

End Sample.

(** ** The specification's vocabulary

    Definitions that follow the words of the specification, to state what
    the code above is compared with. *)

(** Substring containment. *)
Fixpoint is_prefix (u s : string) : bool :=
  match u, s with
  | EmptyString, _ => true
  | String a u', String b s' => Ascii.eqb a b && is_prefix u' s'
  | String _ _, EmptyString => false
  end.

Fixpoint contains (s u : string) : bool :=
  is_prefix u s ||
  match s with
  | EmptyString => false
  | String _ s' => contains s' u
  end.

(** The characters [LIKE] gives a meaning to. *)
Definition is_wildcard (c : ascii) : bool :=
  Ascii.eqb c "%" || Ascii.eqb c "_" || Ascii.eqb c "\".

Fixpoint plain (s : string) : bool :=
  match s with
  | EmptyString => true
  | String c s' => negb (is_wildcard c) && plain s'
  end.

(** Section 4.3: the station name contains the uppercased city text, and
    the country is the given one when a country code is given. *)
Definition station_matches (city : string) (country_code : option string)
  (r : Stations.row) : bool :=
  match Stations.name r with
  | None => false
  | Some n => contains (sql_upper n) (sql_upper city)
  end &&
  match country_code with
  | None => true
  | Some c => bool_decide (Stations.country r = Some c)
  end.

Definition city_of (r : Stations.row) : City.t :=
  {| City.stn := Stations.stn r; City.wban := Stations.wban r;
     City.name := Stations.name r; City.country := Stations.country r;
     City.lat := Stations.lat r; City.lon := Stations.lon r |}.

(** Section 4.2, the sentinel filter: a raw reading is missing when it is
    null, when a temperature equals 9999.9, when a precipitation is at or
    above 99.99 and when a wind speed is at or above 999.9; any other
    reading is returned unchanged. *)
Inductive metric_kind := Temp | Prcp | Wdsp.

Definition sentinel_filter (k : metric_kind) (v : option Qc) : option Qc :=
  x ← v;
  match k with
  | Temp => if decide (x = TEMP_SENTINEL) then None else Some x
  | Prcp => if decide (x < PRCP_SENTINEL)%Qc then Some x else None
  | Wdsp => if decide (x < WDSP_SENTINEL)%Qc then Some x else None
  end.

(** The observations of a station over a date interval, in table order. *)
Definition station_days (stn wban : string) (lo hi : date) (db : Dataset)
  : list Gsod.row :=
  filter (λ r, Gsod.stn r = stn ∧ Gsod.wban r = wban ∧
               date_le lo (Gsod.date r) ∧ date_le (Gsod.date r) hi) (gsod db).

(** Those with a mean temperature: the rows every aggregate ranges over. *)
Definition qualifying (stn wban : string) (lo hi : date) (db : Dataset)
  : list Gsod.row :=
  filter (λ r, is_Some (sentinel_filter Temp (Gsod.temp r)))
         (station_days stn wban lo hi db).

(** The valid readings of a column over some rows. *)
Definition readings (k : metric_kind) (col : Gsod.row → option Qc)
  (rows : list Gsod.row) : list Qc :=
  omap (λ r, sentinel_filter k (col r)) rows.

Definition minimum (l : list Qc) : option Qc :=
  match l with [] => None | x :: xs => Some (foldr qc_min x xs) end.

Definition maximum (l : list Qc) : option Qc :=
  match l with [] => None | x :: xs => Some (foldr qc_max x xs) end.

Definition mean (l : list Qc) : option Qc :=
  match l with
  | [] => None
  | _ => Some (qc_sum l / Q2Qc (inject_Z (Z.of_nat (length l))))%Qc
  end.

(** Section 3: an observation is identified by its station and date. *)
Definition obs_key (r : Gsod.row) : string * string * date :=
  (Gsod.stn r, Gsod.wban r, Gsod.date r).

Definition keyed (db : Dataset) : Prop := NoDup (obs_key <$> gsod db).

(** The statement texts of a run, and the reply of a run that returned. *)
Definition texts {A} (run : list Issued * result A) : list string :=
  sent_text <$> issued run.

Definition returned {A} (run : list Issued * result A) : option A :=
  match outcome run with Ok a => Some a | Raise _ => None end.

(** The reply [range_weather_summary] builds from the one answer row. *)
Definition summary_of (stn wban s e : string) (row : SummaryRow) : RangeSummary.t :=
  {| RangeSummary.stn := stn;
     RangeSummary.wban := wban;
     RangeSummary.start_date := s;
     RangeSummary.end_date := e;
     RangeSummary.temperature :=
       {| min_c := f_to_c (temp_min_f row);
          max_c := f_to_c (temp_max_f row);
          mean_c := f_to_c (temp_mean_f row) |};
     RangeSummary.rainfall := {| total_mm := inches_to_mm (prcp_sum_in row) |};
     RangeSummary.wind := {| mean_kmh := knots_to_kmh (wind_mean_knots row) |} |}.

(** A found summary with every aggregate missing. *)
Definition nothing (stn wban s e : string) : RangeSummary.t :=
  {| RangeSummary.stn := stn;
     RangeSummary.wban := wban;
     RangeSummary.start_date := s;
     RangeSummary.end_date := e;
     RangeSummary.temperature := {| min_c := None; max_c := None; mean_c := None |};
     RangeSummary.rainfall := {| total_mm := None |};
     RangeSummary.wind := {| mean_kmh := None |} |}.

(** The metric list [daily_weather_series] works with. *)
Definition chosen_metrics (metrics : option (list string)) : list string :=
  if truthy_list metrics then default [] metrics else ["temp_mean_c"].

(** The ["date"] field of every entry of a series. *)
Definition entry_dates (data : list (gmap string json)) : list (option json) :=
  (λ item : gmap string json, item !! "date") <$> data.

(** The bind parameters of [resolve_city] and of [yearly_max_temp]. *)
Definition resolve_city_params (city : string) (country_code : option string)
  : list ScalarQueryParameter :=
  Param "city" STRING (PStr city) ::
  (if truthy_str country_code
   then [Param "country" STRING (PStr (default "" country_code))] else []).

Definition yearly_params (stn wban : string) (year : Z) : list ScalarQueryParameter :=
  [ Param "stn" STRING (PStr stn);
    Param "wban" STRING (PStr wban);
    Param "year" INT64 (PInt year) ].

(** The country [resolve_city] filters on: none for [None] and for [""]. *)
Definition country_of (country_code : option string) : option string :=
  if truthy_str country_code then country_code else None.

(** The replies [resolve_city] and [yearly_max_temp] build from the answer. *)
Definition city_reply (rows : list Stations.row) : Reply City.t :=
  match rows with
  | [] => NotFound "No station for that city"
  | row :: _ => Found (city_of row)
  end.

Definition hottest_reply (stn wban : string) (year : Z) (rows : list HottestRow)
  : Reply Hottest.t :=
  match rows with
  | [] => NotFound "No data for that year"
  | row :: _ =>
      Found {| Hottest.stn := stn; Hottest.wban := wban; Hottest.year := year;
               Hottest.date := date_str (hot_date row);
               Hottest.max_c := f_to_c (max_temp_f row) |}
  end.

(** The metric names of the docstring of [daily_weather_series]. *)
Definition METRICS : list string :=
  ["temp_mean_c"; "temp_max_c"; "temp_min_c"; "rain_mm"; "wind_kmh"].

(** A log of exactly one call of the client. *)
Definition one_statement (text : string) (params : list ScalarQueryParameter)
  : list Issued := [ {| sent_text := text; sent_params := params |} ].

Definition empty_series (stn wban s e : string) (metrics : list string) : Series.t :=
  {| Series.stn := stn; Series.wban := wban;
     Series.start_date := s; Series.end_date := e;
     Series.metrics := metrics; Series.data := [] |}.

(** A run that refused its input before it called the client. *)
Definition rejected_unqueried {A} (run : list Issued * result A) : Prop :=
  issued run = [] ∧ ∃ e, outcome run = Raise e.

(** Section 3, the invariant, for one field of an entry: over a valid
    reading the field is absent or is the conversion of that reading; over
    a missing reading it is absent or null. *)
Definition field_follows (k : metric_kind) (conv : option Qc → option Qc)
  (raw : option Qc) (field : option json) : Prop :=
  match sentinel_filter k raw with
  | Some x => field = None ∨ field = Some (json_of_float (conv (Some x)))
  | None => field = None ∨ field = Some JNull
  end.

Definition entry_follows (row : Gsod.row) (item : gmap string json) : Prop :=
  field_follows Temp f_to_c (Gsod.temp row) (item !! "temp_mean_c") ∧
  field_follows Temp f_to_c (Gsod.max row) (item !! "temp_max_c") ∧
  field_follows Temp f_to_c (Gsod.min row) (item !! "temp_min_c") ∧
  field_follows Prcp inches_to_mm (Gsod.prcp row) (item !! "rain_mm") ∧
  field_follows Wdsp knots_to_kmh (Gsod.wdsp row) (item !! "wind_kmh").

(** The summary of section 4.5 over some rows: the aggregates of their
    valid readings, converted. *)
Definition summary_over (stn wban s e : string) (rows : list Gsod.row)
  : RangeSummary.t :=
  {| RangeSummary.stn := stn;
     RangeSummary.wban := wban;
     RangeSummary.start_date := s;
     RangeSummary.end_date := e;
     RangeSummary.temperature :=
       {| min_c := f_to_c (minimum (readings Temp Gsod.temp rows));
          max_c := f_to_c (maximum (readings Temp Gsod.temp rows));
          mean_c := f_to_c (mean (readings Temp Gsod.temp rows)) |};
     RangeSummary.rainfall :=
       {| total_mm := inches_to_mm (Some (qc_sum (readings Prcp Gsod.prcp rows))) |};
     RangeSummary.wind :=
       {| mean_kmh := knots_to_kmh (mean (readings Wdsp Gsod.wdsp rows)) |} |}.

(** What a found reply carries. *)
Definition payload {A} (r : result (Reply A)) : option A :=
  match r with
  | Ok (Found a) => Some a
  | _ => None
  end.

(** ** More vocabulary: yearly maxima, orders, entries, parameters *)

(** The rows [yearly_max_temp] chooses from: the station's rows of the year
    with a maximum that is neither null nor the sentinel. *)
Definition hot_days (stn wban : string) (year : Z) (db : Dataset) : list Gsod.row :=
  filter (λ r, Gsod.stn r = stn ∧ Gsod.wban r = wban ∧
               d_year (Gsod.date r) = year ∧
               is_Some (sentinel_filter Temp (Gsod.max r))) (gsod db).

(** The answer to the statement of [yearly_max_temp] for a year that fits
    an [INT64]: the first of these rows in [ORDER BY max_temp_f DESC]. *)
Definition hottest_rows (stn wban : string) (year : Z) (db : Dataset)
  : list HottestRow :=
  (λ r, {| hot_date := Gsod.date r; max_temp_f := Gsod.max r |}) <$>
  take 1 (merge_sort hotter_first (hot_days stn wban year db)).

(** A requested field over a valid reading: present, and the conversion. *)
Definition field_reports (k : metric_kind) (conv : option Qc → option Qc)
  (raw : option Qc) (field : option json) : Prop :=
  ∀ x, sentinel_filter k raw = Some x →
       field = Some (json_of_float (conv (Some x))).

(** The same for the five metrics of an entry, each if requested. *)
Definition entry_reports (metrics : list string) (row : Gsod.row)
  (item : gmap string json) : Prop :=
  ("temp_mean_c" ∈ metrics →
   field_reports Temp f_to_c (Gsod.temp row) (item !! "temp_mean_c")) ∧
  ("temp_max_c" ∈ metrics →
   field_reports Temp f_to_c (Gsod.max row) (item !! "temp_max_c")) ∧
  ("temp_min_c" ∈ metrics →
   field_reports Temp f_to_c (Gsod.min row) (item !! "temp_min_c")) ∧
  ("rain_mm" ∈ metrics →
   field_reports Prcp inches_to_mm (Gsod.prcp row) (item !! "rain_mm")) ∧
  ("wind_kmh" ∈ metrics →
   field_reports Wdsp knots_to_kmh (Gsod.wdsp row) (item !! "wind_kmh")).

(** What an entry says of a row: the row's date as text, and fields that
    follow the row's readings. *)
Definition entry_of (row : Gsod.row) (item : gmap string json) : Prop :=
  item !! "date" = Some (JStr (date_str (Gsod.date row))) ∧
  entry_follows row item.

(** The days the entries of a series carry: the ["date"] text of each,
    read as a date ([None] for an entry without a readable date). *)
Definition entry_days (data : list (gmap string json)) : list (option date) :=
  (λ item : gmap string json,
     match item !! "date" with
     | Some (JStr text) => parse_date text
     | _ => None
     end) <$> data.

(** A table whose [DATE] values are calendar days, as the column type
    has it. *)
Definition calendar (db : Dataset) : Prop :=
  Forall (λ r, valid_date (Gsod.date r) = true) (gsod db).



(** Letter case: a text with its letters A-Z in lower case.  Two texts
    differ only in the case of their letters when they agree once both are
    in lower case. *)
Definition lower_ascii (c : ascii) : ascii :=
  let n := nat_of_ascii c in
  if (65 <=? n)%nat && (n <=? 90)%nat then ascii_of_nat (n + 32) else c.

Fixpoint text_lower (s : string) : string :=
  match s with
  | EmptyString => EmptyString
  | String c s' => String (lower_ascii c) (text_lower s')
  end.

(** The sample station with the first of January 2020 entered twice. *)
Definition sample_twice : Dataset :=
  {| stations := [];
     gsod :=
       [ Sample.obs 2 (Some (dec 50 1)) (Some (dec 55 1)) (Some (dec 45 1))
                      (Some (dec 1 10)) (Some (dec 5 1));
         Sample.obs 1 (Some (dec 32 1)) (Some (dec 40 1)) (Some (dec 30 1))
                      (Some (dec 2 10)) (Some (dec 6 1));
         Sample.obs 1 (Some (dec 33 1)) (Some (dec 41 1)) (Some (dec 31 1))
                      (Some (dec 3 10)) (Some (dec 7 1)) ] |}.

(** The sample station with a day of null readings and a day of sentinel
    readings, and the series of its maxima, minima, rain and wind. *)
Definition sample_gaps : Dataset :=
  {| stations := [];
     gsod :=
       [ Sample.obs 1 (Some (dec 32 1)) None None None None;
         Sample.obs 2 (Some (dec 50 1)) (Some TEMP_SENTINEL) (Some TEMP_SENTINEL)
                      (Some PRCP_SENTINEL) (Some WDSP_SENTINEL) ] |}.

Definition gaps_metrics : list string :=
  ["temp_max_c"; "temp_min_c"; "rain_mm"; "wind_kmh"].

Definition gaps_series : Series.t :=
  {| Series.stn := "037720"; Series.wban := "99999";
     Series.start_date := "2020-01-01"; Series.end_date := "2020-01-31";
     Series.metrics := gaps_metrics;
     Series.data :=
       [ <["temp_min_c" := JNull]>
           (<["temp_max_c" := JNull]> {[ "date" := JStr "2020-01-01" ]});
         {[ "date" := JStr "2020-01-02" ]} ] |}.

(** The characters of a parameter name in a statement text. *)
Definition is_name_char (c : ascii) : bool :=
  let n := nat_of_ascii c in
  ((48 <=? n) && (n <=? 57) || (65 <=? n) && (n <=? 90) ||
   (97 <=? n) && (n <=? 122) || (n =? 95))%nat.

(** The named parameters [@name] a statement text refers to, in the order
    of the text; [cur] is the name being read, if any. *)
Fixpoint scan_placeholders (cur : option string) (s : string) : list string :=
  match s with
  | EmptyString => match cur with Some n => [n] | None => [] end
  | String c s' =>
      match cur with
      | Some n =>
          if is_name_char c then scan_placeholders (Some (n +:+ String c "")) s'
          else n :: scan_placeholders (if Ascii.eqb c "@" then Some "" else None) s'
      | None =>
          scan_placeholders (if Ascii.eqb c "@" then Some "" else None) s'
      end
  end.

Definition placeholders (text : string) : list string :=
  scan_placeholders None text.

(** The names of the parameters bound in a call of the client. *)
Definition bound_names (q : Issued) : list string := p_name <$> sent_params q.

(** The sample table in the opposite row order. *)
Definition sample_reversed : Dataset :=
  {| stations := stations Sample.db; gsod := reverse (gsod Sample.db) |}.

(** The hottest day of 2020 at the sample station. *)
Definition sample_hottest : Hottest.t :=
  {| Hottest.stn := "037720"; Hottest.wban := "99999"; Hottest.year := 2020;
     Hottest.date := "2020-01-03";
     Hottest.max_c := f_to_c (Some (dec 2150 10)) |}.

(** * Properties *)

(** ** Facts about the SQL model and the client *)

Lemma sql_and_true a b :
  sql_and a b = Some true ↔ a = Some true ∧ b = Some true.
Proof.
  destruct a as [[]|], b as [[]|]; simpl; split;
    (intros [? ?] || intros ?); (done || split; done).
Qed.

Lemma temp_kept v :
  sql_ne v (Some TEMP_SENTINEL) = Some true ↔
  is_Some (sentinel_filter Temp v).
Proof.
  destruct v as [x|]; simpl.
  - unfold sql_ne; simpl. destruct (decide (x = TEMP_SENTINEL)) as [->|Hne].
    + rewrite bool_decide_eq_false_2 by (intros H; by apply H).
      split; [done|]. intros [? ?]; done.
    + rewrite bool_decide_eq_true_2 by done. split; eauto.
  - split; [done|]. intros [? ?]; done.
Qed.

Lemma in_range_true stn wban lo hi r :
  in_range stn wban lo hi r = Some true ↔
  (Gsod.stn r = stn ∧ Gsod.wban r = wban ∧
   date_le lo (Gsod.date r) ∧ date_le (Gsod.date r) hi) ∧
  is_Some (sentinel_filter Temp (Gsod.temp r)).
Proof.
  unfold in_range. rewrite !sql_and_true, temp_kept.
  unfold sql_eq, sql_between; simpl.
  rewrite !(inj_iff Some), !bool_decide_eq_true. tauto.
Qed.

(** The rows the shared filter keeps are the qualifying rows. *)
Lemma sql_where_in_range stn wban lo hi db :
  sql_where (in_range stn wban lo hi) (gsod db) = qualifying stn wban lo hi db.
Proof.
  unfold sql_where, qualifying, station_days.
  rewrite list_filter_filter. apply list_filter_iff.
  intros r. rewrite in_range_true. tauto.
Qed.

Lemma range_summary_rows_params db stn wban s e :
  range_summary_rows db (range_params stn wban s e) =
  lo ← read_date s; hi ← read_date e;
  Ok [aggregate (qualifying stn wban lo hi db)].
Proof.
  unfold range_summary_rows.
  change (string_param "stn" (range_params stn wban s e)) with (Ok stn).
  change (string_param "wban" (range_params stn wban s e)) with (Ok wban).
  change (date_param "start_date" (range_params stn wban s e)) with (read_date s).
  change (date_param "end_date" (range_params stn wban s e)) with (read_date e).
  simpl. destruct (read_date s) as [lo|]; [|done]. simpl.
  destruct (read_date e) as [hi|]; [|done]. simpl.
  by rewrite sql_where_in_range.
Qed.

Lemma daily_series_rows_params db stn wban s e :
  daily_series_rows db (range_params stn wban s e) =
  lo ← read_date s; hi ← read_date e;
  Ok (merge_sort by_date (qualifying stn wban lo hi db)).
Proof.
  unfold daily_series_rows.
  change (string_param "stn" (range_params stn wban s e)) with (Ok stn).
  change (string_param "wban" (range_params stn wban s e)) with (Ok wban).
  change (date_param "start_date" (range_params stn wban s e)) with (read_date s).
  change (date_param "end_date" (range_params stn wban s e)) with (read_date e).
  simpl. destruct (read_date s) as [lo|]; [|done]. simpl.
  destruct (read_date e) as [hi|]; [|done]. simpl.
  by rewrite sql_where_in_range.
Qed.

Lemma read_date_parsed s d : parse_date s = Some d → read_date s = Ok d.
Proof. unfold read_date. by intros ->. Qed.

Lemma range_weather_summary_run stn wban s e db :
  range_weather_summary stn wban s e db =
  ([ {| sent_text := range_summary_sql;
        sent_params := range_params stn wban s e |} ],
   lo ← read_date s; hi ← read_date e;
   Ok (Found (summary_of stn wban s e (aggregate (qualifying stn wban lo hi db))))).
Proof.
  unfold range_weather_summary, mbind at 1, M_bind, bq_query. simpl denote.
  rewrite range_summary_rows_params.
  destruct (read_date s); [|reflexivity].
  destruct (read_date e); reflexivity.
Qed.

(** Closed decidable facts, by evaluation. *)
Ltac by_compute :=
  match goal with
  | |- ?P => apply (bool_decide_unpack P); vm_compute; exact I
  end.

Lemma qualifying_drop st pre r post stn wban lo hi :
  Gsod.temp r = Some TEMP_SENTINEL →
  qualifying stn wban lo hi {| stations := st; gsod := pre ++ r :: post |} =
  qualifying stn wban lo hi {| stations := st; gsod := pre ++ post |}.
Proof.
  intros Hr. rewrite <- !sql_where_in_range. unfold sql_where. simpl.
  rewrite !filter_app. f_equal.
  apply filter_cons_False.
  rewrite in_range_true, Hr.
  change (sentinel_filter Temp (Some TEMP_SENTINEL)) with (@None Qc).
  intros [_ [? ?]]. done.
Qed.

(** ** The unit converters *)

Section Converters.
Import PrimFloat FloatOps FloatAxioms.

(** C4. On every binary64 number [v], the numbers Python computes with,
    the three converters return [(v - 32) * 5 / 9], [v * 25.4] and
    [v * 1.852], each operation being the IEEE 754 operation of binary64
    (the exact result, rounded), grouped as the source writes them and with
    [25.4] and [1.852] the binary64 numbers of these literals; so 32 gives
    0 and 212 gives 100, 1 inch gives 25.4 and 1 knot gives 1.852, exactly;
    and each converter returns null on null.  The converters of the tools'
    model are the same formulas on exact numbers. *)
Theorem unit_converter_formulas :
  (∀ v : float,
     Binary64.f_to_c (Some v) = Some ((v - 32) * 5 / 9)%float ∧
     Binary64.inches_to_mm (Some v) = Some (v * 25.4)%float ∧
     Binary64.knots_to_kmh (Some v) = Some (v * 1.852)%float) ∧
  (∀ v : float,
     (∃ c, Binary64.f_to_c (Some v) = Some c ∧
           Prim2SF c =
             SF64div (SF64mul (SF64sub (Prim2SF v) (Prim2SF 32)) (Prim2SF 5))
                     (Prim2SF 9)) ∧
     (∃ c, Binary64.inches_to_mm (Some v) = Some c ∧
           Prim2SF c = SF64mul (Prim2SF v) (Prim2SF 25.4)) ∧
     (∃ c, Binary64.knots_to_kmh (Some v) = Some c ∧
           Prim2SF c = SF64mul (Prim2SF v) (Prim2SF 1.852))) ∧
  (Binary64.f_to_c (Some 32%float) = Some 0%float ∧
   Binary64.f_to_c (Some 212%float) = Some 100%float ∧
   Binary64.inches_to_mm (Some 1%float) = Some 25.4%float ∧
   Binary64.knots_to_kmh (Some 1%float) = Some 1.852%float) ∧
  (Binary64.f_to_c None = None ∧ Binary64.inches_to_mm None = None ∧
   Binary64.knots_to_kmh None = None) ∧
  (∀ v : Qc,
     f_to_c (Some v) = Some ((v - dec 32 1) * dec 5 1 / dec 9 1)%Qc ∧
     inches_to_mm (Some v) = Some (v * dec 254 10)%Qc ∧
     knots_to_kmh (Some v) = Some (v * dec 1852 1000)%Qc) ∧
  (f_to_c (Some (dec 32 1)) = Some (dec 0 1) ∧
   f_to_c (Some (dec 212 1)) = Some (dec 100 1) ∧
   inches_to_mm (Some (dec 1 1)) = Some (dec 254 10) ∧
   knots_to_kmh (Some (dec 1 1)) = Some (dec 1852 1000)) ∧
  (f_to_c None = None ∧ inches_to_mm None = None ∧ knots_to_kmh None = None).
Proof.
  split; [intros v; repeat split|].
  split.
  { intros v. split; [|split].
    - exists ((v - 32) * 5 / 9)%float. split; [reflexivity|].
      by rewrite div_spec, mul_spec, sub_spec.
    - exists (v * 25.4)%float. split; [reflexivity|]. apply mul_spec.
    - exists (v * 1.852)%float. split; [reflexivity|]. apply mul_spec. }
  split; [repeat split|].
  split; [repeat split|].
  split; [intros v; repeat split|].
  split; [|repeat split].
  split; [by_compute|]. split; [by_compute|]. split; by_compute.
Qed.

End Converters.

(** ** Loading the module *)

(** C10. Importing [server.py] as written stops with [NameError] on [List]
    at the definition of [daily_weather_series], before the statement that
    starts serving tool calls has run; with [List] bound the same module
    loads to the end and serves. *)
Theorem import_raises_NameError :
  Loader.import_server = Loader.NameError 206 "List" false ∧
  Loader.load ("List" :: Loader.builtins) false Loader.server_py =
    Loader.Imported
      (concat (reverse (Loader.binds <$> Loader.server_py)) ++
       "List" :: Loader.builtins) true.
Proof. split; vm_compute; reflexivity. Qed.

(** ** Ranges without qualifying rows *)

(** C1. Over a valid date range in which no row of the station qualifies,
    [range_weather_summary] does not answer [found: false]: the aggregate
    statement still yields its one row, and the tool returns [found: true]
    with every aggregate null. *)
Theorem range_summary_over_no_rows stn wban s e lo hi db :
  parse_date s = Some lo → parse_date e = Some hi →
  qualifying stn wban lo hi db = [] →
  outcome (range_weather_summary stn wban s e db) =
    Ok (Found (nothing stn wban s e)).
Proof.
  intros Hs He Hq. rewrite range_weather_summary_run. unfold outcome; simpl.
  rewrite (read_date_parsed _ _ Hs), (read_date_parsed _ _ He). simpl.
  rewrite Hq. reflexivity.
Qed.

Lemma range_summary_over_no_rows_witness :
  parse_date "2021-01-01" = Some (Date 2021 1 1) ∧
  parse_date "2021-01-03" = Some (Date 2021 1 3) ∧
  qualifying "037720" "99999" (Date 2021 1 1) (Date 2021 1 3) Sample.db = [] ∧
  outcome (range_weather_summary "037720" "99999" "2021-01-01" "2021-01-03"
             Sample.db) =
    Ok (Found (nothing "037720" "99999" "2021-01-01" "2021-01-03")).
Proof.
  split; [reflexivity|]. split; [reflexivity|]. split; [reflexivity|].
  apply (range_summary_over_no_rows _ _ _ _ (Date 2021 1 1) (Date 2021 1 3));
    reflexivity.
Defined.

(** ** Rows without a mean temperature *)

(** C5. In [range_weather_summary] a row whose mean temperature is the
    sentinel 9999.9 takes part in no aggregate: with or without such a row
    in the table the tool submits the same statement and returns the same
    reply, whatever the row's precipitation and wind readings are. *)
Theorem missing_temp_row_is_ignored st pre r post stn wban s e :
  Gsod.temp r = Some TEMP_SENTINEL →
  range_weather_summary stn wban s e {| stations := st; gsod := pre ++ r :: post |} =
  range_weather_summary stn wban s e {| stations := st; gsod := pre ++ post |}.
Proof.
  intros Hr. rewrite !range_weather_summary_run. f_equal.
  destruct (read_date s) as [lo|]; [|done].
  destruct (read_date e) as [hi|]; [|done]. simpl.
  by rewrite (qualifying_drop _ _ _ _ _ _ _ _ Hr).
Qed.

Lemma missing_temp_row_is_ignored_witness :
  Gsod.temp Sample.no_temp = Some TEMP_SENTINEL ∧
  sentinel_filter Prcp (Gsod.prcp Sample.no_temp) = Some (dec 3 10) ∧
  sentinel_filter Wdsp (Gsod.wdsp Sample.no_temp) = Some (dec 7 1) ∧
  range_weather_summary "037720" "99999" "2020-01-01" "2020-01-31" Sample.db =
  range_weather_summary "037720" "99999" "2020-01-01" "2020-01-31"
    {| stations := stations Sample.db;
       gsod := take 2 (gsod Sample.db) ++ drop 3 (gsod Sample.db) |}.
Proof.
  split; [reflexivity|]. split; [reflexivity|]. split; [reflexivity|].
  exact (missing_temp_row_is_ignored (stations Sample.db)
           (take 2 (gsod Sample.db)) Sample.no_temp (drop 3 (gsod Sample.db))
           "037720" "99999" "2020-01-01" "2020-01-31" eq_refl).
Defined.

(** ** The daily series *)

#[global] Instance date_le_trans : Transitive date_le.
Proof. intros [] [] []; unfold date_le; simpl; lia. Qed.

#[global] Instance date_le_total : Total date_le.
Proof. intros [] []; unfold date_le; simpl; lia. Qed.

#[global] Instance by_date_trans : Transitive by_date.
Proof. intros a b c. unfold by_date. apply date_le_trans. Qed.

#[global] Instance by_date_total : Total by_date.
Proof. intros a b. unfold by_date. apply date_le_total. Qed.

Lemma daily_weather_series_run stn wban s e metrics db :
  daily_weather_series stn wban s e metrics db =
  ([ {| sent_text := daily_series_sql;
        sent_params := range_params stn wban s e |} ],
   lo ← read_date s; hi ← read_date e;
   Ok {| Series.stn := stn; Series.wban := wban;
         Series.start_date := s; Series.end_date := e;
         Series.metrics := chosen_metrics metrics;
         Series.data := series_item (chosen_metrics metrics) <$>
                        merge_sort by_date (qualifying stn wban lo hi db) |}).
Proof.
  unfold daily_weather_series, mbind at 1, M_bind, bq_query. simpl denote.
  rewrite daily_series_rows_params.
  destruct (read_date s); [|reflexivity].
  destruct (read_date e); reflexivity.
Qed.

Lemma daily_weather_series_returned stn wban s e metrics db out :
  returned (daily_weather_series stn wban s e metrics db) = Some out →
  ∃ lo hi, parse_date s = Some lo ∧ parse_date e = Some hi ∧
    out = {| Series.stn := stn; Series.wban := wban;
             Series.start_date := s; Series.end_date := e;
             Series.metrics := chosen_metrics metrics;
             Series.data := series_item (chosen_metrics metrics) <$>
                            merge_sort by_date (qualifying stn wban lo hi db) |}.
Proof.
  rewrite daily_weather_series_run. unfold returned, outcome, read_date; simpl.
  destruct (parse_date s) as [lo|]; [|done]. simpl.
  destruct (parse_date e) as [hi|]; [|done]. simpl.
  intros [= <-]. by exists lo, hi.
Qed.

(** What an entry holds under each of its six possible keys. *)
Ltac item_lookup :=
  unfold series_item;
  repeat match goal with
         | |- context [if ?b then _ else _] => destruct b
         end;
  repeat (rewrite lookup_insert_ne by discriminate);
  first [ apply lookup_insert_eq | apply lookup_singleton_eq
        | rewrite lookup_singleton_ne by discriminate; reflexivity
        | reflexivity ].

Lemma series_item_date metrics row :
  series_item metrics row !! "date" = Some (JStr (date_str (Gsod.date row))).
Proof. item_lookup. Qed.

Lemma series_item_temp_mean metrics row :
  series_item metrics row !! "temp_mean_c" =
  if asks "temp_mean_c" metrics
  then Some (json_of_float (f_to_c (Gsod.temp row))) else None.
Proof. item_lookup. Qed.

Lemma series_item_temp_max metrics row :
  series_item metrics row !! "temp_max_c" =
  if asks "temp_max_c" metrics && py_ne (Gsod.max row) TEMP_SENTINEL
  then Some (json_of_float (f_to_c (Gsod.max row))) else None.
Proof. item_lookup. Qed.

Lemma series_item_temp_min metrics row :
  series_item metrics row !! "temp_min_c" =
  if asks "temp_min_c" metrics && py_ne (Gsod.min row) TEMP_SENTINEL
  then Some (json_of_float (f_to_c (Gsod.min row))) else None.
Proof. item_lookup. Qed.

Lemma series_item_rain_mm metrics row :
  series_item metrics row !! "rain_mm" =
  if asks "rain_mm" metrics && py_below (Gsod.prcp row) PRCP_SENTINEL
  then Some (json_of_float (inches_to_mm (Gsod.prcp row))) else None.
Proof. item_lookup. Qed.

Lemma series_item_wind_kmh metrics row :
  series_item metrics row !! "wind_kmh" =
  if asks "wind_kmh" metrics && py_below (Gsod.wdsp row) WDSP_SENTINEL
  then Some (json_of_float (knots_to_kmh (Gsod.wdsp row))) else None.
Proof. item_lookup. Qed.

Lemma series_item_rain row :
  series_item ["rain_mm"] row =
  if py_below (Gsod.prcp row) PRCP_SENTINEL
  then <["rain_mm" := json_of_float (inches_to_mm (Gsod.prcp row))]>
         ({[ "date" := JStr (date_str (Gsod.date row)) ]} : gmap string json)
  else {[ "date" := JStr (date_str (Gsod.date row)) ]}.
Proof. reflexivity. Qed.

(** C7. With [metrics = ["rain_mm"]] every entry of the series has no key
    besides ["date"] and ["rain_mm"], and it has ["rain_mm"] exactly when
    the day's precipitation reading is non-null and below 99.99, the value
    being that reading in millimetres. *)
Theorem rain_only_series stn wban s e db out :
  returned (daily_weather_series stn wban s e (Some ["rain_mm"]) db) = Some out →
  ∃ lo hi, parse_date s = Some lo ∧ parse_date e = Some hi ∧
    Forall2
      (λ (row : Gsod.row) (item : gmap string json),
         dom item ⊆ ({[ "date"; "rain_mm" ]} : gset string) ∧
         item !! "rain_mm" =
           (p ← sentinel_filter Prcp (Gsod.prcp row);
            Some (JNum (p * dec 254 10)%Qc)))
      (merge_sort by_date (qualifying stn wban lo hi db))
      (Series.data out).
Proof.
  intros (lo & hi & Hs & He & ->)%daily_weather_series_returned.
  exists lo, hi. split; [done|]. split; [done|]. simpl.
  apply Forall2_fmap_r, Forall_Forall2_diag, Forall_forall. intros row _.
  change (chosen_metrics (Some ["rain_mm"])) with ["rain_mm"].
  unfold compose. rewrite series_item_rain.
  destruct (Gsod.prcp row) as [p|]; simpl.
  - destruct (decide (p < PRCP_SENTINEL)%Qc) as [Hp|Hp].
    + rewrite bool_decide_eq_true_2 by done. split.
      * rewrite dom_insert, dom_singleton. set_solver.
      * by rewrite lookup_insert_eq.
    + rewrite bool_decide_eq_false_2 by done. split.
      * rewrite dom_singleton. set_solver.
      * done.
  - split; [rewrite dom_singleton; set_solver|done].
Qed.

Lemma sample_rain_series :
  returned (daily_weather_series "037720" "99999" "2020-01-01" "2020-01-31"
              (Some ["rain_mm"]) Sample.db) = Some Sample.rain_series.
Proof. by_compute. Defined.

Lemma rain_only_series_witness :
  returned (daily_weather_series "037720" "99999" "2020-01-01" "2020-01-31"
              (Some ["rain_mm"]) Sample.db) = Some Sample.rain_series ∧
  ∃ lo hi, parse_date "2020-01-01" = Some lo ∧ parse_date "2020-01-31" = Some hi ∧
    Forall2
      (λ (row : Gsod.row) (item : gmap string json),
         dom item ⊆ ({[ "date"; "rain_mm" ]} : gset string) ∧
         item !! "rain_mm" =
           (p ← sentinel_filter Prcp (Gsod.prcp row);
            Some (JNum (p * dec 254 10)%Qc)))
      (merge_sort by_date (qualifying "037720" "99999" lo hi Sample.db))
      (Series.data Sample.rain_series).
Proof.
  split; [exact sample_rain_series|].
  exact (rain_only_series "037720" "99999" "2020-01-01" "2020-01-31"
           Sample.db Sample.rain_series sample_rain_series).
Defined.

Lemma date_le_lt a b : date_le a b → a ≠ b → date_lt a b.
Proof.
  destruct a as [y1 m1 d1], b as [y2 m2 d2]. unfold date_le, date_lt; simpl.
  intros H Hne.
  assert (¬ (y1 = y2 ∧ m1 = m2 ∧ d1 = d2)) by (intros (-> & -> & ->); done).
  lia.
Qed.

Lemma strictly_sorted (l : list date) :
  StronglySorted date_le l → NoDup l → StronglySorted date_lt l.
Proof.
  induction 1 as [|x l Hl IH Hx]; intros Hnd; [constructor|].
  apply NoDup_cons in Hnd as [Hx' Hnd].
  constructor; [by apply IH|].
  apply Forall_forall. intros y Hy.
  apply date_le_lt; [by eapply Forall_forall in Hx|].
  intros ->. done.
Qed.

Lemma qualifying_sublist stn wban lo hi db :
  qualifying stn wban lo hi db `sublist_of` gsod db.
Proof.
  unfold qualifying, station_days.
  etrans; apply sublist_filter.
Qed.

Lemma qualifying_station stn wban lo hi db r :
  r ∈ qualifying stn wban lo hi db → Gsod.stn r = stn ∧ Gsod.wban r = wban.
Proof.
  unfold qualifying, station_days.
  rewrite !list_elem_of_filter. tauto.
Qed.

Lemma qualifying_dates_NoDup stn wban lo hi db :
  keyed db → NoDup (Gsod.date <$> qualifying stn wban lo hi db).
Proof.
  intros Hk.
  assert (NoDup (obs_key <$> qualifying stn wban lo hi db)) as Hq.
  { eapply sublist_NoDup; [exact Hk|].
    apply fmap_sublist, qualifying_sublist. }
  assert (Gsod.date <$> qualifying stn wban lo hi db =
          snd <$> (obs_key <$> qualifying stn wban lo hi db)) as ->.
  { rewrite <- list_fmap_compose. done. }
  apply NoDup_fmap_2_strong; [|done].
  intros [[s1 w1] d1] [[s2 w2] d2]
    (a & [= -> -> ->] & [-> ->]%qualifying_station)%list_elem_of_fmap
    (b & [= -> -> ->] & [Hb1 Hb2]%qualifying_station)%list_elem_of_fmap.
  simpl. intros ->. by rewrite Hb1, Hb2.
Qed.

(** The rows of a series are in ascending date order, whatever the table. *)
Lemma sorted_rows_dates stn wban lo hi db :
  StronglySorted date_le
    (Gsod.date <$> merge_sort by_date (qualifying stn wban lo hi db)).
Proof.
  apply (StronglySorted_fmap _ by_date); [by intros ?? H|].
  apply StronglySorted_merge_sort; apply _.
Qed.

Lemma sample_keyed : keyed Sample.db.
Proof. by_compute. Defined.

(** ** One statement per call *)

Lemma query_then_reply {R A} (st : Statement R) ps (k : list R → M A)
    (f : list R → A) db :
  (∀ rows, k rows = mret (f rows)) →
  (bq_query st ps ≫= k) db =
  ([ {| sent_text := sql st; sent_params := ps |} ], f <$> denote st db ps).
Proof.
  intros Hk. unfold mbind, M_bind, bq_query.
  destruct (denote st db ps) as [rows|err]; [|reflexivity].
  rewrite Hk. reflexivity.
Qed.

Lemma resolve_city_run city cc db :
  resolve_city city cc db =
  ([ {| sent_text := resolve_city_sql (truthy_str cc);
        sent_params := resolve_city_params city cc |} ],
   city_reply <$> resolve_city_rows (truthy_str cc) db (resolve_city_params city cc)).
Proof.
  unfold resolve_city.
  replace (if truthy_str cc
           then [Param "city" STRING (PStr city)] ++
                [Param "country" STRING (PStr (default "" cc))]
           else [Param "city" STRING (PStr city)])
    with (resolve_city_params city cc)
    by (unfold resolve_city_params; by destruct (truthy_str cc)).
  apply (query_then_reply (resolve_city_stmt (truthy_str cc))).
  by intros [|row rows].
Qed.

Lemma yearly_max_temp_run stn wban year db :
  yearly_max_temp stn wban year db =
  ([ {| sent_text := yearly_max_sql; sent_params := yearly_params stn wban year |} ],
   hottest_reply stn wban year <$> yearly_max_rows db (yearly_params stn wban year)).
Proof.
  unfold yearly_max_temp.
  apply (query_then_reply yearly_max_stmt). by intros [|row rows].
Qed.

(** ** Where the caller's values go *)

(** C9, counterexample.  Two calls of [resolve_city] that differ only in
    the country code submit different texts: the country condition is
    part of the text only when a country code is given. *)
Lemma query_text_varies :
  texts (resolve_city "london" None Sample.db) ≠
  texts (resolve_city "london" (Some "UK") Sample.db).
Proof. by_compute. Qed.

(** C9, as amended.  For [range_weather_summary], [yearly_max_temp] and
    [daily_weather_series] every call submits the same text; for
    [resolve_city] the text depends only on whether a non-empty country
    code was given.  The caller's values are the bind parameters of the
    statement and nothing else of it. *)
Theorem query_text_is_fixed :
  (∀ stn wban s e db stn' wban' s' e' db',
     texts (range_weather_summary stn wban s e db) =
     texts (range_weather_summary stn' wban' s' e' db')) ∧
  (∀ stn wban year db stn' wban' year' db',
     texts (yearly_max_temp stn wban year db) =
     texts (yearly_max_temp stn' wban' year' db')) ∧
  (∀ stn wban s e metrics db stn' wban' s' e' metrics' db',
     texts (daily_weather_series stn wban s e metrics db) =
     texts (daily_weather_series stn' wban' s' e' metrics' db')) ∧
  (∀ city cc db city' cc' db',
     truthy_str cc = truthy_str cc' →
     texts (resolve_city city cc db) = texts (resolve_city city' cc' db')) ∧
  (∀ stn wban s e db,
     sent_params <$> issued (range_weather_summary stn wban s e db) =
     [range_params stn wban s e]) ∧
  (∀ stn wban year db,
     sent_params <$> issued (yearly_max_temp stn wban year db) =
     [yearly_params stn wban year]) ∧
  (∀ stn wban s e metrics db,
     sent_params <$> issued (daily_weather_series stn wban s e metrics db) =
     [range_params stn wban s e]) ∧
  (∀ city cc db,
     sent_params <$> issued (resolve_city city cc db) =
     [resolve_city_params city cc]).
Proof.
  repeat split; intros;
    rewrite ?range_weather_summary_run, ?yearly_max_temp_run,
            ?daily_weather_series_run, ?resolve_city_run; try reflexivity.
  unfold texts, issued; simpl. congruence.
Qed.

Lemma query_text_is_fixed_witness :
  truthy_str (Some "UK") = truthy_str (Some "FR") ∧
  texts (resolve_city "london" (Some "UK") Sample.db) =
  texts (resolve_city "paris" (Some "FR") Sample.empty) ∧
  texts (range_weather_summary "037720" "99999" "2020-01-01" "2020-01-31" Sample.db) =
  texts (range_weather_summary "x' OR 1=1 --" "" "never" "" Sample.empty).
Proof.
  split; [reflexivity|]. split.
  - apply (proj1 (proj2 (proj2 (proj2 query_text_is_fixed)))). reflexivity.
  - apply (proj1 query_text_is_fixed).
Defined.

(** ** No validation before the query *)

Lemma asks_elem k metrics : asks k metrics = true → k ∈ metrics.
Proof. unfold asks. apply bool_decide_eq_true_1. Qed.

Lemma series_item_keys metrics row k :
  is_Some (series_item metrics row !! k) →
  k = "date" ∨ (k ∈ metrics ∧ k ∈ METRICS).
Proof.
  intros [v Hv]. unfold series_item in Hv.
  repeat match type of Hv with
         | context [if ?b then _ else _] => destruct b eqn:?
         end;
  repeat match goal with
         | H : _ && _ = true |- _ => apply andb_true_iff in H as [H _]
         | H : asks _ _ = true |- _ => apply asks_elem in H
         end;
  repeat (apply lookup_insert_Some in Hv as [[<- _]|[_ Hv]];
          [right; split; [assumption|unfold METRICS; set_solver]|]);
  apply lookup_singleton_Some in Hv as [<- _]; by left.
Qed.

Lemma filter_none {A} (P : A → Prop) `{∀ x, Decision (P x)} (l : list A) :
  (∀ x, x ∈ l → ¬ P x) → filter P l = [].
Proof.
  induction l as [|x l IH]; intros Hl; [done|].
  rewrite filter_cons_False by (apply Hl; left).
  apply IH. intros y Hy. apply Hl. by right.
Qed.

Lemma empty_interval stn wban lo hi db :
  date_lt hi lo → qualifying stn wban lo hi db = [].
Proof.
  intros Hlt. unfold qualifying.
  assert (station_days stn wban lo hi db = []) as ->; [|done].
  apply filter_none. intros r _ (_ & _ & H1 & H2).
  destruct lo, hi, (Gsod.date r). unfold date_lt, date_le in *. simpl in *. lia.
Qed.

(** C3, counterexample.  A call with [start_date] after [end_date] and an
    unknown metric name, and a call with two texts that are no dates, are
    not rejected before the query: each submits its statement; the first
    returns an empty series, the second fails with the dataset's error. *)
Lemma queries_without_validation :
  ¬ rejected_unqueried
      (daily_weather_series "037720" "99999" "2020-01-03" "2020-01-01"
         (Some ["humidity"]) Sample.db) ∧
  ¬ rejected_unqueried
      (range_weather_summary "037720" "99999" "2020-13-45" "yesterday" Sample.db) ∧
  daily_weather_series "037720" "99999" "2020-01-03" "2020-01-01"
    (Some ["humidity"]) Sample.db =
    (one_statement daily_series_sql
       (range_params "037720" "99999" "2020-01-03" "2020-01-01"),
     Ok (empty_series "037720" "99999" "2020-01-03" "2020-01-01" ["humidity"])) ∧
  range_weather_summary "037720" "99999" "2020-13-45" "yesterday" Sample.db =
    (one_statement range_summary_sql
       (range_params "037720" "99999" "2020-13-45" "yesterday"),
     Raise (BadRequest "Invalid date: 2020-13-45")).
Proof.
  split; [intros [H _]; discriminate H|].
  split; [intros [H _]; discriminate H|].
  split; reflexivity.
Qed.

(** C3, as amended.  The three tools check nothing before they query:
    every call submits exactly one statement, with the caller's values as
    its parameters.  A start date that is no date makes the call fail with
    the dataset's error; a start date after the end date gives an empty
    series; any metric names are accepted and echoed, and a name outside
    the five known ones adds no field to any entry. *)
Theorem tools_query_unvalidated :
  (∀ stn wban s e db,
     issued (range_weather_summary stn wban s e db) =
     one_statement range_summary_sql (range_params stn wban s e)) ∧
  (∀ stn wban year db,
     issued (yearly_max_temp stn wban year db) =
     one_statement yearly_max_sql (yearly_params stn wban year)) ∧
  (∀ stn wban s e metrics db,
     issued (daily_weather_series stn wban s e metrics db) =
     one_statement daily_series_sql (range_params stn wban s e)) ∧
  (∀ stn wban s e db,
     parse_date s = None →
     outcome (range_weather_summary stn wban s e db) =
     Raise (BadRequest ("Invalid date: " +:+ s))) ∧
  (∀ stn wban s e metrics db,
     parse_date s = None →
     outcome (daily_weather_series stn wban s e metrics db) =
     Raise (BadRequest ("Invalid date: " +:+ s))) ∧
  (∀ stn wban s e metrics db lo hi,
     parse_date s = Some lo → parse_date e = Some hi → date_lt hi lo →
     outcome (daily_weather_series stn wban s e metrics db) =
     Ok (empty_series stn wban s e (chosen_metrics metrics))) ∧
  (∀ stn wban s e metrics db lo hi,
     parse_date s = Some lo → parse_date e = Some hi →
     ∃ out,
       outcome (daily_weather_series stn wban s e metrics db) = Ok out ∧
       Series.metrics out = chosen_metrics metrics ∧
       Forall (λ item : gmap string json,
                 ∀ k, is_Some (item !! k) →
                      k = "date" ∨ (k ∈ chosen_metrics metrics ∧ k ∈ METRICS))
              (Series.data out)).
Proof.
  repeat split; intros;
    rewrite ?range_weather_summary_run, ?yearly_max_temp_run,
            ?daily_weather_series_run; try reflexivity;
    unfold outcome, read_date; simpl.
  - by rewrite H.
  - by rewrite H.
  - rewrite H, H0. simpl. by rewrite empty_interval.
  - rewrite H, H0. simpl. eexists. split; [reflexivity|]. split; [done|].
    simpl. apply Forall_fmap, Forall_forall. intros row _ k.
    apply series_item_keys.
Qed.

Lemma tools_query_unvalidated_witness :
  parse_date "2020-01-03" = Some (Date 2020 1 3) ∧
  parse_date "2020-01-01" = Some (Date 2020 1 1) ∧
  date_lt (Date 2020 1 1) (Date 2020 1 3) ∧
  outcome (daily_weather_series "037720" "99999" "2020-01-03" "2020-01-01"
             (Some ["humidity"]) Sample.db) =
  Ok (empty_series "037720" "99999" "2020-01-03" "2020-01-01"
        (chosen_metrics (Some ["humidity"]))).
Proof.
  assert (date_lt (Date 2020 1 1) (Date 2020 1 3)) as Hlt
    by (unfold date_lt; simpl; lia).
  split; [reflexivity|]. split; [reflexivity|]. split; [exact Hlt|].
  exact (proj1 (proj2 (proj2 (proj2 (proj2 (proj2 tools_query_unvalidated)))))
           "037720" "99999" "2020-01-03" "2020-01-01" (Some ["humidity"])
           Sample.db (Date 2020 1 3) (Date 2020 1 1) eq_refl eq_refl Hlt).
Defined.

(** ** The station resolver *)

Lemma like_percent p s :
  sql_like (String "%" p) s =
  sql_like p s ||
  match s with
  | EmptyString => false
  | String _ s' => sql_like (String "%" p) s'
  end.
Proof. destruct s; reflexivity. Qed.

Lemma like_literal c p s :
  is_wildcard c = false →
  sql_like (String c p) s =
  match s with
  | EmptyString => false
  | String c' s' => Ascii.eqb c c' && sql_like p s'
  end.
Proof.
  unfold is_wildcard. intros H.
  apply orb_false_iff in H as [H H3]. apply orb_false_iff in H as [H1 H2].
  simpl. rewrite H1, H2, H3. reflexivity.
Qed.

Lemma like_percent_all s : sql_like "%" s = true.
Proof.
  induction s as [|c s IH]; [reflexivity|].
  rewrite like_percent, IH. apply orb_true_r.
Qed.

Lemma like_plain_prefix u s :
  plain u = true → sql_like (u +:+ "%") s = is_prefix u s.
Proof.
  revert s. induction u as [|c u IH]; intros s Hu.
  - apply like_percent_all.
  - simpl in Hu. apply andb_true_iff in Hu as [Hc Hu].
    apply negb_true_iff in Hc.
    change (String c u +:+ "%") with (String c (u +:+ "%")).
    rewrite like_literal by done.
    destruct s as [|c' s]; [done|]. simpl. by rewrite IH.
Qed.

Lemma like_contains u s :
  plain u = true → sql_like ("%" +:+ u +:+ "%") s = contains s u.
Proof.
  intros Hu. change ("%" +:+ u +:+ "%") with (String "%" (u +:+ "%")).
  induction s as [|c s IH].
  - rewrite like_percent, like_plain_prefix by done. by destruct u.
  - rewrite like_percent, like_plain_prefix, IH by done. reflexivity.
Qed.

Lemma upper_keeps_wildcards c : is_wildcard (upper_ascii c) = is_wildcard c.
Proof. destruct c as [[] [] [] [] [] [] [] []]; reflexivity. Qed.

Lemma plain_upper s : plain (sql_upper s) = plain s.
Proof.
  induction s as [|c s IH]; [done|]. simpl.
  by rewrite upper_keeps_wildcards, IH.
Qed.

(** [contains] is substring containment. *)
Lemma is_prefix_spec u s : is_prefix u s = true ↔ ∃ post, s = u +:+ post.
Proof.
  revert s. induction u as [|a u IH]; intros s; simpl.
  - split; [intros _; by exists s|done].
  - destruct s as [|b s].
    + split; [done|]. intros [post [=]].
    + rewrite andb_true_iff, IH. split.
      * intros [->%Ascii.eqb_eq [post ->]]. by exists post.
      * intros [post [= -> ->]]. split; [apply Ascii.eqb_refl|by exists post].
Qed.

Lemma contains_spec s u :
  contains s u = true ↔ ∃ pre post, s = pre +:+ u +:+ post.
Proof.
  induction s as [|c s IH]; simpl.
  - rewrite orb_false_r, is_prefix_spec. split.
    + intros [post ->]. by exists "", post.
    + intros ([|? pre] & post & H); [by exists post|done].
  - rewrite orb_true_iff, is_prefix_spec, IH. split.
    + intros [[post ->]|(pre & post & ->)].
      * by exists "", post.
      * by exists (String c pre), post.
    + intros ([|c' pre] & post & H).
      * left. by exists post.
      * right. injection H as -> ->. by exists pre, post.
Qed.

#[global] Instance null_first_trans {A} (R : relation A) `{!Transitive R} :
  Transitive (null_first R).
Proof. intros [x|] [y|] [z|]; simpl; try done. apply transitivity. Qed.

#[global] Instance null_first_total {A} (R : relation A) `{!Total R} :
  Total (null_first R).
Proof. intros [x|] [y|]; simpl; auto. Qed.

#[global] Instance name_le_trans : Transitive name_le.
Proof. intros a b c. unfold name_le. apply transitivity. Qed.

#[global] Instance name_le_total : Total name_le.
Proof. intros a b. unfold name_le. apply total; apply _. Qed.

Lemma resolve_city_rows_params city cc db :
  resolve_city_rows (truthy_str cc) db (resolve_city_params city cc) =
  Ok (take 1 (merge_sort name_le
                (sql_where (city_matches city (country_of cc)) (stations db)))).
Proof.
  unfold resolve_city_rows, resolve_city_params, country_of.
  destruct cc as [c|]; [|reflexivity]. simpl.
  destruct (bool_decide (c ≠ "")); reflexivity.
Qed.

Lemma city_matches_spec city country r :
  plain city = true →
  city_matches city country r = Some true ↔ station_matches city country r = true.
Proof.
  intros Hc. unfold city_matches, station_matches, sql_like_null.
  destruct (Stations.name r) as [n|].
  - change (sql_upper <$> Some n) with (Some (sql_upper n)).
    change (Some (sql_upper n) ≫= λ x, Some (sql_like ("%" +:+ sql_upper city +:+ "%") x))
      with (Some (sql_like ("%" +:+ sql_upper city +:+ "%") (sql_upper n))).
    rewrite like_contains by (by rewrite plain_upper).
    destruct country as [c|].
    + rewrite sql_and_true, andb_true_iff, (inj_iff Some). unfold sql_eq.
      destruct (Stations.country r) as [c'|]; simpl.
      * rewrite (inj_iff Some), !bool_decide_eq_true, (inj_iff Some). done.
      * split; intros [? ?]; done.
    + rewrite andb_true_r. apply (inj_iff Some).
  - destruct country as [c|]; simpl; [|done].
    destruct (sql_eq (Stations.country r) (Some c)) as [[]|]; done.
Qed.

Lemma head_of_sorted `{R : relation A} `{!RelDecision R, !Transitive R, !Total R}
    (l : list A) :
  match take 1 (merge_sort R l) with
  | [] => l = []
  | x :: _ => x ∈ l ∧ ∀ y, y ∈ l → R x y
  end.
Proof.
  pose proof (merge_sort_Permutation R l) as Hp.
  pose proof (StronglySorted_merge_sort R l) as Hs.
  destruct (merge_sort R l) as [|x rest]; simpl.
  - by apply Permutation_nil_l in Hp.
  - split; [rewrite <- Hp; left|].
    intros y Hy. rewrite <- Hp in Hy.
    apply StronglySorted_inv in Hs as [_ Hx].
    apply elem_of_cons in Hy as [->|Hy].
    + destruct (total R x x); done.
    + by eapply Forall_forall in Hx.
Qed.





(** ** Sentinel readings *)

(** The sentinel filter returns a reading unchanged or not at all. *)
Lemma sentinel_filter_Some k v x : sentinel_filter k v = Some x → v = Some x.
Proof.
  destruct v as [y|]; [|done]. destruct k; simpl; case_decide; congruence.
Qed.

Lemma non_null_fmap {A B} (f : A → option B) (l : list A) :
  non_null (f <$> l) = omap f l.
Proof.
  induction l as [|x l IH]; [done|]. unfold non_null in *. simpl.
  destruct (f x); [f_equal|]; exact IH.
Qed.

Lemma omap_ext_in {A B} (f g : A → option B) (l : list A) :
  (∀ x, x ∈ l → f x = g x) → omap f l = omap g l.
Proof.
  induction l as [|x l IH]; intros H; [done|]. simpl.
  rewrite (H x) by left.
  assert (omap f l = omap g l) as IH' by (apply IH; intros y Hy; apply H; by right).
  destruct (g x); [f_equal|]; exact IH'.
Qed.

Lemma qualifying_temp stn wban lo hi db r :
  r ∈ qualifying stn wban lo hi db →
  sentinel_filter Temp (Gsod.temp r) = Gsod.temp r.
Proof.
  unfold qualifying. rewrite list_elem_of_filter. intros [[x Hx] _].
  rewrite Hx. symmetry. by eapply sentinel_filter_Some.
Qed.

Lemma temps_of_qualifying stn wban lo hi db :
  non_null (Gsod.temp <$> qualifying stn wban lo hi db) =
  readings Temp Gsod.temp (qualifying stn wban lo hi db).
Proof.
  rewrite non_null_fmap. unfold readings. apply omap_ext_in.
  intros r Hr. symmetry. by eapply qualifying_temp.
Qed.

Lemma wdsp_or_null_filter r : wdsp_or_null r = sentinel_filter Wdsp (Gsod.wdsp r).
Proof.
  unfold wdsp_or_null, sql_lt. destruct (Gsod.wdsp r) as [x|]; [|done]. simpl.
  destruct (decide (x < WDSP_SENTINEL)%Qc).
  - by rewrite bool_decide_eq_true_2.
  - by rewrite bool_decide_eq_false_2.
Qed.

Lemma prcp_or_zero_filter r :
  prcp_or_zero r = Some (default (Q2Qc 0) (sentinel_filter Prcp (Gsod.prcp r))).
Proof.
  unfold prcp_or_zero, sql_lt. destruct (Gsod.prcp r) as [x|]; [|done]. simpl.
  destruct (decide (x < PRCP_SENTINEL)%Qc).
  - by rewrite bool_decide_eq_true_2.
  - by rewrite bool_decide_eq_false_2.
Qed.

Lemma sum_with_zeros (f : Gsod.row → option Qc) (l : list Gsod.row) :
  qc_sum ((λ r, default (Q2Qc 0) (f r)) <$> l) = qc_sum (omap f l).
Proof.
  induction l as [|r l IH]; [done|]. simpl.
  destruct (f r) as [x|]; simpl.
  - f_equal. exact IH.
  - rewrite Qcplus_0_l. exact IH.
Qed.

Lemma min_of_readings l : sql_min l = minimum (non_null l).
Proof. reflexivity. Qed.
Lemma max_of_readings l : sql_max l = maximum (non_null l).
Proof. reflexivity. Qed.
Lemma avg_of_readings l : sql_avg l = mean (non_null l).
Proof. unfold sql_avg, mean. by destruct (non_null l). Qed.

Lemma wind_readings rows :
  non_null (wdsp_or_null <$> rows) = readings Wdsp Gsod.wdsp rows.
Proof.
  rewrite non_null_fmap. apply omap_ext_in. intros r _. apply wdsp_or_null_filter.
Qed.

Lemma prcp_readings rows :
  non_null (prcp_or_zero <$> rows) =
  (λ r, default (Q2Qc 0) (sentinel_filter Prcp (Gsod.prcp r))) <$> rows.
Proof.
  rewrite non_null_fmap.
  induction rows as [|r l IH]; [done|]. simpl.
  rewrite prcp_or_zero_filter. f_equal. exact IH.
Qed.

Lemma aggregate_readings stn wban lo hi db :
  let rows := qualifying stn wban lo hi db in
  temp_min_f (aggregate rows) = minimum (readings Temp Gsod.temp rows) ∧
  temp_max_f (aggregate rows) = maximum (readings Temp Gsod.temp rows) ∧
  temp_mean_f (aggregate rows) = mean (readings Temp Gsod.temp rows) ∧
  wind_mean_knots (aggregate rows) = mean (readings Wdsp Gsod.wdsp rows) ∧
  (rows ≠ [] →
   prcp_sum_in (aggregate rows) = Some (qc_sum (readings Prcp Gsod.prcp rows))).
Proof.
  intros rows. unfold aggregate; simpl.
  rewrite min_of_readings, max_of_readings, !avg_of_readings.
  unfold rows. rewrite !temps_of_qualifying, wind_readings. fold rows.
  repeat split.
  intros Hne. unfold sql_sum. rewrite prcp_readings.
  unfold readings. rewrite <- sum_with_zeros.
  destruct rows; [done|]. reflexivity.
Qed.

Lemma temp_field_follows (asked : bool) v :
  field_follows Temp f_to_c v
    (if asked && py_ne v TEMP_SENTINEL
     then Some (json_of_float (f_to_c v)) else None).
Proof.
  unfold field_follows, py_ne. destruct v as [x|]; simpl.
  - destruct (decide (x = TEMP_SENTINEL)) as [->|Hx].
    + rewrite bool_decide_eq_false_2 by (intros H; by apply H).
      rewrite andb_false_r. by left.
    + destruct (asked && _); [by right|by left].
  - destruct (asked && _); [by right|by left].
Qed.

Lemma below_field_follows (asked : bool) k c conv v :
  (k = Prcp ∧ c = PRCP_SENTINEL) ∨ (k = Wdsp ∧ c = WDSP_SENTINEL) →
  field_follows k conv v
    (if asked && py_below v c then Some (json_of_float (conv v)) else None).
Proof.
  intros Hk. unfold field_follows, py_below. destruct v as [x|]; simpl.
  - destruct Hk as [[-> ->]|[-> ->]];
      (destruct (decide (x < _)%Qc);
       [ rewrite bool_decide_eq_true_2 by done;
         destruct asked; [by right|by left]
       | rewrite bool_decide_eq_false_2 by done;
         rewrite andb_false_r; by left ]).
  - rewrite andb_false_r. by left.
Qed.

Lemma series_item_follows metrics row :
  is_Some (sentinel_filter Temp (Gsod.temp row)) →
  entry_follows row (series_item metrics row).
Proof.
  intros [x Hx]. unfold entry_follows.
  rewrite series_item_temp_mean, series_item_temp_max, series_item_temp_min,
          series_item_rain_mm, series_item_wind_kmh.
  split; [|split; [|split; [|split]]].
  - unfold field_follows. rewrite Hx.
    rewrite (sentinel_filter_Some _ _ _ Hx).
    destruct (asks _ _); [by right|by left].
  - apply temp_field_follows.
  - apply temp_field_follows.
  - apply below_field_follows. by left.
  - apply below_field_follows. by right.
Qed.

#[global] Instance hotter_first_trans : Transitive hotter_first.
Proof.
  intros a b c Hab Hbc. unfold hotter_first in *.
  by apply (transitivity (R := null_first Qcle) Hbc).
Qed.

#[global] Instance hotter_first_total : Total hotter_first.
Proof.
  intros a b. unfold hotter_first.
  destruct (total (null_first Qcle) (Gsod.max a) (Gsod.max b)); auto.
Qed.

Lemma in_year_spec stn wban year r :
  in_year stn wban year r = Some true ↔
  Gsod.stn r = stn ∧ Gsod.wban r = wban ∧ d_year (Gsod.date r) = year ∧
  is_Some (sentinel_filter Temp (Gsod.max r)).
Proof.
  unfold in_year. rewrite !sql_and_true, temp_kept.
  unfold sql_eq; simpl.
  rewrite !(inj_iff Some), !bool_decide_eq_true. tauto.
Qed.

Lemma sql_where_in_year stn wban year db :
  sql_where (in_year stn wban year) (gsod db) = hot_days stn wban year db.
Proof.
  unfold sql_where, hot_days. apply list_filter_iff.
  intros r. apply in_year_spec.
Qed.

Lemma hot_day_reading stn wban year db r :
  r ∈ hot_days stn wban year db →
  ∃ x, Gsod.max r = Some x ∧ x ≠ TEMP_SENTINEL.
Proof.
  unfold hot_days. rewrite list_elem_of_filter. intros [(_ & _ & _ & [x Hx]) _].
  exists x. split; [by eapply sentinel_filter_Some|].
  intros ->. rewrite (sentinel_filter_Some _ _ _ Hx) in Hx.
  by vm_compute in Hx.
Qed.

Lemma yearly_max_rows_params db stn wban year :
  yearly_max_rows db (yearly_params stn wban year) =
  if is_int64 year then Ok (hottest_rows stn wban year db)
  else Raise (BadRequest "Value out of range for INT64: year").
Proof.
  unfold yearly_max_rows, hottest_rows.
  change (string_param "stn" (yearly_params stn wban year)) with (Ok stn).
  change (string_param "wban" (yearly_params stn wban year)) with (Ok wban).
  change (int_param "year" (yearly_params stn wban year))
    with (if is_int64 year then Ok year
          else Raise (BadRequest "Value out of range for INT64: year")).
  destruct (is_int64 year); [|reflexivity].
  simpl. by rewrite sql_where_in_year.
Qed.

Lemma yearly_max_temp_outcome stn wban year db :
  outcome (yearly_max_temp stn wban year db) =
  if is_int64 year
  then Ok (hottest_reply stn wban year (hottest_rows stn wban year db))
  else Raise (BadRequest "Value out of range for INT64: year").
Proof.
  rewrite yearly_max_temp_run, yearly_max_rows_params.
  unfold outcome. simpl. by destruct (is_int64 year).
Qed.

(** A found reply of [yearly_max_temp] is built from a row the statement
    kept, the first in its order. *)
Lemma yearly_max_temp_found stn wban year db h :
  outcome (yearly_max_temp stn wban year db) = Ok (Found h) →
  ∃ r, r ∈ hot_days stn wban year db ∧
       (∀ r', r' ∈ hot_days stn wban year db → hotter_first r r') ∧
       h = {| Hottest.stn := stn; Hottest.wban := wban; Hottest.year := year;
              Hottest.date := date_str (Gsod.date r);
              Hottest.max_c := f_to_c (Gsod.max r) |}.
Proof.
  rewrite yearly_max_temp_outcome. destruct (is_int64 year); [|done].
  unfold hottest_rows.
  pose proof (head_of_sorted (R := hotter_first) (hot_days stn wban year db)) as H.
  destruct (take 1 _) as [|r rest]; [done|]. simpl. intros [= <-].
  destruct H as [Hr Hmax]. by exists r.
Qed.

Lemma first_sorted_elem `{R : relation A} `{!RelDecision R} (l : list A) x rest :
  take 1 (merge_sort R l) = x :: rest → x ∈ l.
Proof.
  intros H. rewrite <- (merge_sort_Permutation R l).
  eapply subseteq_take. rewrite H. left.
Qed.

Lemma range_summary_over_readings stn wban s e db lo hi :
  parse_date s = Some lo → parse_date e = Some hi →
  qualifying stn wban lo hi db ≠ [] →
  outcome (range_weather_summary stn wban s e db) =
  Ok (Found (summary_over stn wban s e (qualifying stn wban lo hi db))).
Proof.
  intros Hs He Hne. rewrite range_weather_summary_run.
  unfold outcome. simpl.
  rewrite (read_date_parsed _ _ Hs), (read_date_parsed _ _ He). simpl.
  destruct (aggregate_readings stn wban lo hi db) as (H1 & H2 & H3 & H4 & H5).
  unfold summary_of, summary_over. rewrite H1, H2, H3, H4, (H5 Hne). done.
Qed.

(** C2, counterexample.  Of the two January days of the dry sample one
    has the precipitation sentinel and the other a null reading: no
    precipitation reading is valid, and [total_mm] is 0, not missing. *)
Lemma all_missing_rain_totals_zero :
  readings Prcp Gsod.prcp
    (station_days "037720" "99999" (Date 2020 1 1) (Date 2020 1 31) Sample.dry) = [] ∧
  (λ summary, total_mm (RangeSummary.rainfall summary)) <$>
    payload (outcome (range_weather_summary "037720" "99999"
                        "2020-01-01" "2020-01-31" Sample.dry)) =
  Some (Some (Q2Qc 0)).
Proof. split; by_compute. Qed.

(** C2, as amended.  No output field is computed from a sentinel-flagged
    reading.  The entries of a daily series are, in order, the qualifying
    rows of the station in the range: each carries its row's date, and
    each of its metric fields is absent or is the conversion of that row's
    valid reading, and over a missing reading it is absent or null.  The
    hottest day of a year is a row of that station and year with a valid
    maximum, reported with its date and that maximum converted.  When rows
    qualify, a range summary is the converted minimum, maximum and mean of
    their temperatures, the converted mean of their valid wind readings
    (null when there is none) and the converted sum of their valid
    precipitation readings; that sum counts a missing reading as nothing,
    so the total is 0 when no precipitation reading is valid. *)
Theorem outputs_follow_valid_readings :
  (∀ stn wban s e metrics db out,
     returned (daily_weather_series stn wban s e metrics db) = Some out →
     ∃ lo hi, parse_date s = Some lo ∧ parse_date e = Some hi ∧
       Forall2 entry_of
         (merge_sort by_date (qualifying stn wban lo hi db))
         (Series.data out)) ∧
  (∀ stn wban year db h,
     returned (yearly_max_temp stn wban year db) = Some (Found h) →
     ∃ r x, r ∈ hot_days stn wban year db ∧
            sentinel_filter Temp (Gsod.max r) = Some x ∧
            Hottest.date h = date_str (Gsod.date r) ∧
            Hottest.max_c h = f_to_c (Some x)) ∧
  (∀ stn wban s e db lo hi,
     parse_date s = Some lo → parse_date e = Some hi →
     qualifying stn wban lo hi db ≠ [] →
     returned (range_weather_summary stn wban s e db) =
     Some (Found (summary_over stn wban s e (qualifying stn wban lo hi db)))) ∧
  (∀ stn wban s e db lo hi,
     parse_date s = Some lo → parse_date e = Some hi →
     qualifying stn wban lo hi db ≠ [] →
     readings Prcp Gsod.prcp (qualifying stn wban lo hi db) = [] →
     (λ summary, total_mm (RangeSummary.rainfall summary)) <$>
       payload (outcome (range_weather_summary stn wban s e db)) =
     Some (Some (Q2Qc 0))).
Proof.
  split; [|split; [|split]].
  - intros * (lo & hi & Hs & He & ->)%daily_weather_series_returned.
    exists lo, hi. split; [done|]. split; [done|]. simpl.
    apply Forall2_fmap_r, Forall_Forall2_diag, Forall_forall.
    intros row Hrow. unfold compose. split; [apply series_item_date|].
    apply series_item_follows.
    rewrite merge_sort_Permutation in Hrow.
    unfold qualifying in Hrow. by apply list_elem_of_filter in Hrow as [? _].
  - intros * Hret.
    assert (outcome (yearly_max_temp stn wban year db) = Ok (Found h)) as Hout.
    { unfold returned in Hret.
      destruct (outcome (yearly_max_temp stn wban year db)); congruence. }
    apply yearly_max_temp_found in Hout as (r & Hr & _ & ->).
    pose proof Hr as Hhot. unfold hot_days in Hhot.
    apply list_elem_of_filter in Hhot as [(_ & _ & _ & [x Hx]) _].
    exists r, x. split; [done|]. split; [done|]. split; [done|]. simpl.
    by rewrite (sentinel_filter_Some _ _ _ Hx).
  - intros * Hs He Hne. unfold returned.
    by rewrite (range_summary_over_readings _ _ _ _ _ _ _ Hs He Hne).
  - intros * Hs He Hne Hdry.
    rewrite (range_summary_over_readings _ _ _ _ _ _ _ Hs He Hne).
    simpl. rewrite Hdry. simpl. do 2 f_equal. apply Qcmult_0_l.
Qed.

Lemma sample_gaps_series :
  returned (daily_weather_series "037720" "99999" "2020-01-01" "2020-01-31"
              (Some gaps_metrics) sample_gaps) = Some gaps_series.
Proof. by_compute. Defined.

Lemma outputs_follow_valid_readings_witness :
  (parse_date "2020-01-01" = Some (Date 2020 1 1) ∧
   parse_date "2020-01-31" = Some (Date 2020 1 31) ∧
   qualifying "037720" "99999" (Date 2020 1 1) (Date 2020 1 31) Sample.dry ≠ [] ∧
   readings Prcp Gsod.prcp
     (qualifying "037720" "99999" (Date 2020 1 1) (Date 2020 1 31) Sample.dry) = [] ∧
   (λ summary, total_mm (RangeSummary.rainfall summary)) <$>
     payload (outcome (range_weather_summary "037720" "99999"
                         "2020-01-01" "2020-01-31" Sample.dry)) =
   Some (Some (Q2Qc 0))) ∧
  (returned (daily_weather_series "037720" "99999" "2020-01-01" "2020-01-31"
               (Some gaps_metrics) sample_gaps) = Some gaps_series ∧
   ∃ lo hi, parse_date "2020-01-01" = Some lo ∧ parse_date "2020-01-31" = Some hi ∧
     Forall2 entry_of
       (merge_sort by_date (qualifying "037720" "99999" lo hi sample_gaps))
       (Series.data gaps_series)).
Proof.
  assert (qualifying "037720" "99999" (Date 2020 1 1) (Date 2020 1 31)
            Sample.dry ≠ []) as Hne by by_compute.
  assert (readings Prcp Gsod.prcp
            (qualifying "037720" "99999" (Date 2020 1 1) (Date 2020 1 31)
               Sample.dry) = []) as Hdry by by_compute.
  split.
  - split; [reflexivity|]. split; [reflexivity|].
    split; [exact Hne|]. split; [exact Hdry|].
    exact (proj2 (proj2 (proj2 outputs_follow_valid_readings))
             "037720" "99999" "2020-01-01" "2020-01-31" Sample.dry
             (Date 2020 1 1) (Date 2020 1 31) eq_refl eq_refl Hne Hdry).
  - split; [exact sample_gaps_series|].
    exact (proj1 outputs_follow_valid_readings
             "037720" "99999" "2020-01-01" "2020-01-31" (Some gaps_metrics)
             sample_gaps gaps_series sample_gaps_series).
Defined.

(** ** Dates as text *)

Ltac div_lia := Z.to_euclidean_division_equations; lia.

Lemma digit_roundtrip k : 0 ≤ k ≤ 9 → digit_of_ascii (ascii_of_digit k) = Some k.
Proof.
  intros Hk.
  assert (k = 0 ∨ k = 1 ∨ k = 2 ∨ k = 3 ∨ k = 4 ∨
          k = 5 ∨ k = 6 ∨ k = 7 ∨ k = 8 ∨ k = 9) as Hcases by lia.
  repeat destruct Hcases as [->|Hcases]; try subst k; reflexivity.
Qed.

Lemma read_pad2 n rest :
  0 ≤ n ≤ 99 → read_1_or_2 (pad2 n rest) = Some (n, rest).
Proof.
  intros Hn. unfold pad2, read_1_or_2.
  rewrite !digit_roundtrip by div_lia.
  simpl. do 2 f_equal. div_lia.
Qed.

Lemma valid_date_bounds d :
  valid_date d = true →
  1 ≤ d_year d ≤ 9999 ∧ 1 ≤ d_month d ≤ 12 ∧ 1 ≤ d_day d ≤ 31.
Proof.
  unfold valid_date, days_in_month. rewrite !andb_true_iff, !Z.leb_le.
  intros [[[[[? ?] ?] ?] ?] Hd].
  assert (d_month d = 1 ∨ d_month d = 2 ∨ d_month d = 3 ∨ d_month d = 4 ∨
          d_month d = 5 ∨ d_month d = 6 ∨ d_month d = 7 ∨ d_month d = 8 ∨
          d_month d = 9 ∨ d_month d = 10 ∨ d_month d = 11 ∨ d_month d = 12)
    as Hm by lia.
  repeat destruct Hm as [Hm|Hm]; rewrite Hm in Hd; simpl in Hd;
    try destruct (is_leap _); lia.
Qed.

Lemma parse_date_str d :
  valid_date d = true → parse_date (date_str d) = Some d.
Proof.
  intros Hv. pose proof (valid_date_bounds d Hv) as (Hy & Hm & Hd).
  destruct d as [y m dd]. simpl in Hy, Hm, Hd.
  unfold date_str, pad4. simpl d_year; simpl d_month; simpl d_day.
  unfold pad2 at 1. unfold parse_date.
  rewrite !digit_roundtrip by div_lia.
  cbn -[pad2 read_1_or_2 valid_date Z.mul Z.add Z.div Z.modulo].
  rewrite read_pad2 by lia.
  cbn -[pad2 read_1_or_2 valid_date Z.mul Z.add Z.div Z.modulo].
  rewrite read_pad2 by lia.
  cbn -[pad2 read_1_or_2 valid_date Z.mul Z.add Z.div Z.modulo].
  assert (1000 * (y / 1000) + 100 * (y / 100 mod 10) + 10 * (y mod 100 / 10) +
          y mod 100 mod 10 = y) as -> by div_lia.
  by rewrite Hv.
Qed.

Lemma date_str_inj d1 d2 :
  valid_date d1 = true → valid_date d2 = true →
  date_str d1 = date_str d2 → d1 = d2.
Proof.
  intros H1 H2 Heq. apply parse_date_str in H1, H2.
  rewrite Heq in H1. congruence.
Qed.

(** The text [str] gives for a calendar day reads back, as a [DATE]
    parameter, as that day (a date of a series entry can be sent back as a
    range bound), and no other calendar day has the same text. *)
Theorem date_str_roundtrip d :
  valid_date d = true →
  parse_date (date_str d) = Some d ∧
  ∀ d', valid_date d' = true → date_str d' = date_str d → d' = d.
Proof.
  intros Hd. split.
  - by apply parse_date_str.
  - intros d' Hd' Heq. by apply date_str_inj.
Qed.

Lemma date_str_roundtrip_witness :
  valid_date (Date 2020 2 29) = true ∧
  date_str (Date 2020 2 29) = "2020-02-29" ∧
  parse_date (date_str (Date 2020 2 29)) = Some (Date 2020 2 29).
Proof.
  split; [reflexivity|]. split; [reflexivity|].
  exact (proj1 (date_str_roundtrip (Date 2020 2 29) eq_refl)).
Defined.

(** Over a table of calendar days with one row per station and day, no
    two entries of a series carry the same ["date"] text. *)
Theorem series_date_texts_distinct stn wban s e metrics db out :
  keyed db →
  Forall (λ r, valid_date (Gsod.date r) = true) (gsod db) →
  returned (daily_weather_series stn wban s e metrics db) = Some out →
  NoDup (entry_dates (Series.data out)).
Proof.
  intros Hk Hv (lo & hi & Hs & He & ->)%daily_weather_series_returned.
  unfold entry_dates. simpl. rewrite <- list_fmap_compose.
  assert (((λ item : gmap string json, item !! "date") ∘
           series_item (chosen_metrics metrics)) <$>
            merge_sort by_date (qualifying stn wban lo hi db) =
          (λ d, Some (JStr (date_str d))) <$>
            (Gsod.date <$> merge_sort by_date (qualifying stn wban lo hi db))) as ->.
  { rewrite <- list_fmap_compose. apply list_fmap_ext.
    intros i r _. apply series_item_date. }
  rewrite merge_sort_Permutation.
  apply NoDup_fmap_2_strong; [|by apply qualifying_dates_NoDup].
  intros d1 d2 (r1 & -> & Hr1)%list_elem_of_fmap (r2 & -> & Hr2)%list_elem_of_fmap Heq.
  assert (date_str (Gsod.date r1) = date_str (Gsod.date r2)) as Hstr by congruence.
  assert (∀ r, r ∈ qualifying stn wban lo hi db → valid_date (Gsod.date r) = true) as Hq.
  { intros r Hr. eapply Forall_forall in Hv; [exact Hv|].
    eapply sublist_subseteq; [apply qualifying_sublist|done]. }
  apply date_str_inj; auto.
Qed.

Lemma sample_valid_dates :
  Forall (λ r, valid_date (Gsod.date r) = true) (gsod Sample.db).
Proof. repeat constructor. Defined.

Lemma series_date_texts_distinct_witness :
  keyed Sample.db ∧
  Forall (λ r, valid_date (Gsod.date r) = true) (gsod Sample.db) ∧
  returned (daily_weather_series "037720" "99999" "2020-01-01" "2020-01-31"
              (Some ["rain_mm"]) Sample.db) = Some Sample.rain_series ∧
  NoDup (entry_dates (Series.data Sample.rain_series)).
Proof.
  split; [exact sample_keyed|]. split; [exact sample_valid_dates|].
  split; [exact sample_rain_series|].
  exact (series_date_texts_distinct "037720" "99999" "2020-01-01" "2020-01-31"
           (Some ["rain_mm"]) Sample.db Sample.rain_series
           sample_keyed sample_valid_dates sample_rain_series).
Defined.

(** ** The order of a series *)

Lemma sorted_lt_NoDup (l : list date) : StronglySorted date_lt l → NoDup l.
Proof.
  induction 1 as [|x l Hl IH Hx]; constructor; [|done].
  intros Hin. eapply Forall_forall in Hx; [|exact Hin].
  destruct x. unfold date_lt in Hx. simpl in Hx. lia.
Qed.

Lemma series_entry_dates metrics (rows : list Gsod.row) :
  entry_dates (series_item metrics <$> rows) =
  (λ d, Some (JStr (date_str d))) <$> (Gsod.date <$> rows).
Proof.
  unfold entry_dates. rewrite <- !list_fmap_compose.
  apply list_fmap_ext. intros i row _. apply series_item_date.
Qed.

Lemma series_entry_days metrics (rows : list Gsod.row) :
  Forall (λ r, valid_date (Gsod.date r) = true) rows →
  entry_days (series_item metrics <$> rows) = Some <$> (Gsod.date <$> rows).
Proof.
  intros Hv. unfold entry_days. rewrite <- !list_fmap_compose.
  apply list_fmap_ext. intros i row Hi. unfold compose.
  rewrite series_item_date. apply parse_date_str.
  eapply Forall_forall in Hv; [exact Hv|]. by eapply list_elem_of_lookup_2.
Qed.

(** C8, counterexample.  A table in which the first of January is entered
    twice for the station gives a series that holds this day twice: the
    days of its entries are not strictly ascending. *)
Lemma series_repeats_a_date :
  calendar sample_twice ∧
  (λ out, entry_days (Series.data out)) <$>
    returned (daily_weather_series "037720" "99999" "2020-01-01" "2020-01-31"
                None sample_twice) =
  Some [Some (Date 2020 1 1); Some (Date 2020 1 1); Some (Date 2020 1 2)] ∧
  ¬ StronglySorted date_lt [Date 2020 1 1; Date 2020 1 1; Date 2020 1 2].
Proof.
  split; [repeat constructor|]. split; [by_compute|].
  intros H. apply sorted_lt_NoDup in H.
  apply NoDup_cons in H as [H _]. apply H. left.
Qed.

(** C8, as amended.  The entries of a series carry, in order, the dates of
    the qualifying rows sorted by date, one entry for each row: over a
    table of calendar days the date texts read back as days in ascending
    order.  The order is strict, with no day twice, exactly when no two
    qualifying rows of the station have the same date, as in a table with
    one row per station and day; the tool itself drops no row. *)
Theorem series_dates_ascend stn wban s e metrics db out :
  returned (daily_weather_series stn wban s e metrics db) = Some out →
  ∃ lo hi, parse_date s = Some lo ∧ parse_date e = Some hi ∧
    let days := Gsod.date <$> merge_sort by_date (qualifying stn wban lo hi db) in
    entry_dates (Series.data out) = (λ d, Some (JStr (date_str d))) <$> days ∧
    (calendar db → entry_days (Series.data out) = Some <$> days) ∧
    days ≡ₚ Gsod.date <$> qualifying stn wban lo hi db ∧
    StronglySorted date_le days ∧
    (StronglySorted date_lt days ↔
     NoDup (Gsod.date <$> qualifying stn wban lo hi db)) ∧
    (keyed db → StronglySorted date_lt days).
Proof.
  intros (lo & hi & Hs & He & ->)%daily_weather_series_returned.
  exists lo, hi. split; [done|]. split; [done|]. simpl.
  split; [apply series_entry_dates|].
  split.
  { intros Hv. apply series_entry_days. apply Forall_forall. intros r Hr.
    rewrite merge_sort_Permutation in Hr.
    eapply Forall_forall in Hv; [exact Hv|].
    eapply sublist_subseteq; [apply qualifying_sublist|done]. }
  split; [by rewrite merge_sort_Permutation|].
  split; [apply sorted_rows_dates|].
  assert (NoDup (Gsod.date <$> qualifying stn wban lo hi db) →
          StronglySorted date_lt
            (Gsod.date <$> merge_sort by_date (qualifying stn wban lo hi db))) as Hstrict.
  { intros Hnd. apply strictly_sorted; [apply sorted_rows_dates|].
    by rewrite merge_sort_Permutation. }
  split; [split; [|exact Hstrict]|].
  - intros Hlt%sorted_lt_NoDup. by rewrite merge_sort_Permutation in Hlt.
  - intros Hk. by apply Hstrict, qualifying_dates_NoDup.
Qed.

Lemma series_dates_ascend_witness :
  returned (daily_weather_series "037720" "99999" "2020-01-01" "2020-01-31"
              (Some ["rain_mm"]) Sample.db) = Some Sample.rain_series ∧
  calendar Sample.db ∧ keyed Sample.db ∧
  entry_days (Series.data Sample.rain_series) =
    [Some (Date 2020 1 1); Some (Date 2020 1 2); Some (Date 2020 1 3)] ∧
  ∃ lo hi, parse_date "2020-01-01" = Some lo ∧ parse_date "2020-01-31" = Some hi ∧
    let days := Gsod.date <$>
                merge_sort by_date (qualifying "037720" "99999" lo hi Sample.db) in
    entry_dates (Series.data Sample.rain_series) =
      (λ d, Some (JStr (date_str d))) <$> days ∧
    (calendar Sample.db →
     entry_days (Series.data Sample.rain_series) = Some <$> days) ∧
    days ≡ₚ Gsod.date <$> qualifying "037720" "99999" lo hi Sample.db ∧
    StronglySorted date_le days ∧
    (StronglySorted date_lt days ↔
     NoDup (Gsod.date <$> qualifying "037720" "99999" lo hi Sample.db)) ∧
    (keyed Sample.db → StronglySorted date_lt days).
Proof.
  split; [exact sample_rain_series|]. split; [exact sample_valid_dates|].
  split; [exact sample_keyed|]. split; [reflexivity|].
  exact (series_dates_ascend "037720" "99999" "2020-01-01" "2020-01-31"
           (Some ["rain_mm"]) Sample.db Sample.rain_series sample_rain_series).
Defined.

(** * Further properties of the tools *)

(** ** The hottest day of a year *)

(** For a year that fits an [INT64], [yearly_max_temp] never fails.  It
    answers [found: false] exactly when the station has no row in the year
    with a maximum that is neither null nor 9999.9; otherwise it reports
    such a row, with its date as text and its maximum converted, and no
    row of the station in that year has a higher valid maximum.  A year
    outside the 64-bit range is sent as it is, and the call fails with the
    dataset's error. *)
Theorem yearly_max_is_hottest stn wban year db :
  (is_int64 year = true →
   match outcome (yearly_max_temp stn wban year db) with
   | Ok (Found h) =>
       ∃ r x, r ∈ hot_days stn wban year db ∧ Gsod.max r = Some x ∧
         x ≠ TEMP_SENTINEL ∧
         h = {| Hottest.stn := stn; Hottest.wban := wban; Hottest.year := year;
                Hottest.date := date_str (Gsod.date r);
                Hottest.max_c := Some ((x - dec 32 1) * dec 5 1 / dec 9 1)%Qc |} ∧
         ∀ r' y, r' ∈ hot_days stn wban year db → Gsod.max r' = Some y →
                 (y ≤ x)%Qc
   | Ok (NotFound reason) =>
       hot_days stn wban year db = [] ∧ reason = "No data for that year"
   | Raise _ => False
   end) ∧
  (is_int64 year = false →
   yearly_max_temp stn wban year db =
   (one_statement yearly_max_sql (yearly_params stn wban year),
    Raise (BadRequest "Value out of range for INT64: year"))).
Proof.
  split; intros Hyear.
  - rewrite yearly_max_temp_outcome, Hyear. unfold hottest_rows.
    pose proof (head_of_sorted (R := hotter_first) (hot_days stn wban year db)) as H.
    destruct (take 1 _) as [|r rest]; simpl.
    + split; [done|reflexivity].
    + destruct H as [Hr Hmax].
      destruct (hot_day_reading _ _ _ _ _ Hr) as (x & Hx & Hne).
      exists r, x. split; [done|]. split; [done|]. split; [done|]. split.
      * by rewrite Hx.
      * intros r' y Hr' Hy. specialize (Hmax r' Hr').
        unfold hotter_first in Hmax. by rewrite Hx, Hy in Hmax.
  - rewrite yearly_max_temp_run, yearly_max_rows_params, Hyear. reflexivity.
Qed.

(** ** Minimum and maximum *)

Lemma qc_min_le a b : (qc_min a b ≤ a)%Qc ∧ (qc_min a b ≤ b)%Qc ∧
                      (qc_min a b = a ∨ qc_min a b = b).
Proof.
  unfold qc_min. destruct (decide (a ≤ b)%Qc) as [H|H].
  - split; [apply Qcle_refl|]. split; [done|by left].
  - split; [|split; [apply Qcle_refl|by right]].
    apply Qclt_le_weak. by apply Qclt_nge.
Qed.

Lemma qc_max_ge a b : (a ≤ qc_max a b)%Qc ∧ (b ≤ qc_max a b)%Qc ∧
                      (qc_max a b = a ∨ qc_max a b = b).
Proof.
  unfold qc_max. destruct (decide (a ≤ b)%Qc) as [H|H].
  - split; [done|]. split; [apply Qcle_refl|by right].
  - split; [apply Qcle_refl|]. split; [|by left].
    apply Qclt_le_weak. by apply Qclt_nge.
Qed.

Lemma minimum_spec l a :
  minimum l = Some a ↔ a ∈ l ∧ ∀ x, x ∈ l → (a ≤ x)%Qc.
Proof.
  assert (∀ x xs, foldr qc_min x xs ∈ x :: xs ∧
                  ∀ y, y ∈ x :: xs → (foldr qc_min x xs ≤ y)%Qc) as Hfold.
  { intros x xs. induction xs as [|z xs [IH1 IH2]]; simpl.
    - split; [left|]. intros y ->%list_elem_of_singleton. apply Qcle_refl.
    - destruct (qc_min_le z (foldr qc_min x xs)) as (H1 & H2 & H3). split.
      + destruct H3 as [-> | ->]; [right; left|].
        apply elem_of_cons in IH1 as [->|?]; [left|right; by right].
      + intros y Hy. apply elem_of_cons in Hy as [->|Hy].
        * eapply Qcle_trans; [exact H2|]. apply IH2. left.
        * apply elem_of_cons in Hy as [->|Hy]; [done|].
          eapply Qcle_trans; [exact H2|]. apply IH2. by right. }
  destruct l as [|x xs]; simpl.
  - split; [done|]. intros [H _]. by apply elem_of_nil in H.
  - destruct (Hfold x xs) as [H1 H2]. split.
    + intros [= <-]. done.
    + intros [Ha Hle]. f_equal. apply Qcle_antisym; [by apply H2|by apply Hle].
Qed.

Lemma maximum_spec l a :
  maximum l = Some a ↔ a ∈ l ∧ ∀ x, x ∈ l → (x ≤ a)%Qc.
Proof.
  assert (∀ x xs, foldr qc_max x xs ∈ x :: xs ∧
                  ∀ y, y ∈ x :: xs → (y ≤ foldr qc_max x xs)%Qc) as Hfold.
  { intros x xs. induction xs as [|z xs [IH1 IH2]]; simpl.
    - split; [left|]. intros y ->%list_elem_of_singleton. apply Qcle_refl.
    - destruct (qc_max_ge z (foldr qc_max x xs)) as (H1 & H2 & H3). split.
      + destruct H3 as [-> | ->]; [right; left|].
        apply elem_of_cons in IH1 as [->|?]; [left|right; by right].
      + intros y Hy. apply elem_of_cons in Hy as [->|Hy].
        * eapply Qcle_trans; [|exact H2]. apply IH2. left.
        * apply elem_of_cons in Hy as [->|Hy]; [done|].
          eapply Qcle_trans; [|exact H2]. apply IH2. by right. }
  destruct l as [|x xs]; simpl.
  - split; [done|]. intros [H _]. by apply elem_of_nil in H.
  - destruct (Hfold x xs) as [H1 H2]. split.
    + intros [= <-]. done.
    + intros [Ha Hle]. f_equal. apply Qcle_antisym; [by apply Hle|by apply H2].
Qed.

Lemma readings_of_qualifying stn wban lo hi db x :
  x ∈ readings Temp Gsod.temp (qualifying stn wban lo hi db) ↔
  ∃ r, r ∈ qualifying stn wban lo hi db ∧ Gsod.temp r = Some x.
Proof.
  unfold readings. rewrite list_elem_of_omap. split.
  - intros (r & Hr & Hx). exists r. split; [done|]. by eapply sentinel_filter_Some.
  - intros (r & Hr & Hx). exists r. split; [done|].
    by rewrite (qualifying_temp _ _ _ _ _ _ Hr).
Qed.

(** When rows qualify, the lowest and the highest temperature of a range
    summary are attained: [min_c] and [max_c] are the conversions of the
    mean temperatures of two qualifying rows, and the mean temperature of
    every qualifying row lies between these two readings. *)
Theorem summary_extremes_attained stn wban s e db lo hi :
  parse_date s = Some lo → parse_date e = Some hi →
  qualifying stn wban lo hi db ≠ [] →
  ∃ summary coldest hottest low high,
    outcome (range_weather_summary stn wban s e db) = Ok (Found summary) ∧
    coldest ∈ qualifying stn wban lo hi db ∧ Gsod.temp coldest = Some low ∧
    hottest ∈ qualifying stn wban lo hi db ∧ Gsod.temp hottest = Some high ∧
    min_c (RangeSummary.temperature summary) = f_to_c (Gsod.temp coldest) ∧
    max_c (RangeSummary.temperature summary) = f_to_c (Gsod.temp hottest) ∧
    ∀ r t, r ∈ qualifying stn wban lo hi db → Gsod.temp r = Some t →
           (low ≤ t)%Qc ∧ (t ≤ high)%Qc.
Proof.
  intros Hs He Hne.
  rewrite (range_summary_over_readings _ _ _ _ _ _ _ Hs He Hne).
  set (temps := readings Temp Gsod.temp (qualifying stn wban lo hi db)).
  assert (temps ≠ []) as Htemps.
  { destruct (qualifying stn wban lo hi db) as [|r rows] eqn:Hq; [done|].
    assert (r ∈ qualifying stn wban lo hi db) as Hr by (rewrite Hq; left).
    pose proof (qualifying_temp _ _ _ _ _ _ Hr) as Ht.
    apply list_elem_of_filter in Hr as [[x Hx] _].
    intros Hnil. assert (x ∈ temps) as Hin.
    { unfold temps. rewrite <- Hq. apply readings_of_qualifying.
      exists r. split; [rewrite Hq; left|congruence]. }
    rewrite Hnil in Hin. by apply elem_of_nil in Hin. }
  destruct (minimum temps) as [a|] eqn:Hmin; [|by destruct temps].
  destruct (maximum temps) as [c|] eqn:Hmax; [|by destruct temps].
  destruct (proj1 (minimum_spec _ _) Hmin) as [Ha Hlow].
  destruct (proj1 (maximum_spec _ _) Hmax) as [Hc Hhigh].
  apply readings_of_qualifying in Ha as (ra & Hra & Hxa).
  apply readings_of_qualifying in Hc as (rc & Hrc & Hxc).
  exists (summary_over stn wban s e (qualifying stn wban lo hi db)), ra, rc, a, c.
  split; [reflexivity|].
  split; [done|]. split; [done|]. split; [done|]. split; [done|].
  split; [|split].
  - unfold summary_over. cbn [RangeSummary.temperature min_c]. fold temps.
    by rewrite Hmin, Hxa.
  - unfold summary_over. cbn [RangeSummary.temperature max_c]. fold temps.
    by rewrite Hmax, Hxc.
  - intros r t Hr Ht.
    assert (t ∈ temps) as Hin by (apply readings_of_qualifying; by exists r).
    split; [by apply Hlow|by apply Hhigh].
Qed.

(** ** The order of the rows *)

Lemma qualifying_Permutation stn wban lo hi db db' :
  gsod db ≡ₚ gsod db' →
  qualifying stn wban lo hi db ≡ₚ qualifying stn wban lo hi db'.
Proof. intros Hp. unfold qualifying, station_days. by rewrite Hp. Qed.

Lemma keyed_rows_by_date stn wban lo hi db r1 r2 :
  keyed db →
  r1 ∈ qualifying stn wban lo hi db → r2 ∈ qualifying stn wban lo hi db →
  Gsod.date r1 = Gsod.date r2 → r1 = r2.
Proof.
  intros Hk H1 H2 Hd.
  assert (obs_key r1 = obs_key r2) as Hkey.
  { apply qualifying_station in H1 as H1', H2 as H2'.
    unfold obs_key. destruct H1' as [-> ->], H2' as [-> ->]. by rewrite Hd. }
  assert (r1 ∈ gsod db) as G1
    by (eapply sublist_subseteq; [apply qualifying_sublist|done]).
  assert (r2 ∈ gsod db) as G2
    by (eapply sublist_subseteq; [apply qualifying_sublist|done]).
  unfold keyed in Hk. clear -Hk G1 G2 Hkey.
  induction (gsod db) as [|r l IH]; [by apply elem_of_nil in G1|].
  rewrite fmap_cons in Hk. apply NoDup_cons in Hk as [Hr Hl].
  apply elem_of_cons in G1 as [->|G1], G2 as [->|G2]; [done| | |by apply IH].
  - exfalso. apply Hr. rewrite Hkey. by apply list_elem_of_fmap_2.
  - exfalso. apply Hr. rewrite <- Hkey. by apply list_elem_of_fmap_2.
Qed.

(** Over a table with one row per station and day, the order of the rows
    in the table does not show in the series: the statement submitted and
    the reply are the same. *)
Theorem series_ignores_row_order stn wban s e metrics db db' :
  keyed db → gsod db ≡ₚ gsod db' →
  daily_weather_series stn wban s e metrics db =
  daily_weather_series stn wban s e metrics db'.
Proof.
  intros Hk Hp. rewrite !daily_weather_series_run. f_equal.
  destruct (read_date s) as [lo|]; [|done].
  destruct (read_date e) as [hi|]; [|done]. simpl. do 3 f_equal.
  apply (StronglySorted_unique_strong by_date).
  - intros r1 r2 H1 H2 H12 H21.
    rewrite merge_sort_Permutation in H1, H2.
    rewrite <- (qualifying_Permutation stn wban lo hi db db' Hp) in H2.
    apply (keyed_rows_by_date stn wban lo hi db); [done..|].
    unfold by_date in *. destruct (Gsod.date r1), (Gsod.date r2).
    unfold date_le in *. simpl in *. f_equal; lia.
  - apply StronglySorted_merge_sort; apply _.
  - apply StronglySorted_merge_sort; apply _.
  - rewrite !merge_sort_Permutation. by apply qualifying_Permutation.
Qed.

(** ** The resolver on any text *)

Lemma resolve_city_outcome city cc db :
  outcome (resolve_city city cc db) =
  Ok (city_reply (take 1 (merge_sort name_le
        (sql_where (city_matches city (country_of cc)) (stations db))))).
Proof.
  rewrite resolve_city_run. unfold outcome. simpl.
  by rewrite resolve_city_rows_params.
Qed.

Lemma upper_lower c : upper_ascii (lower_ascii c) = upper_ascii c.
Proof. destruct c as [[] [] [] [] [] [] [] []]; reflexivity. Qed.

Lemma sql_upper_lower s : sql_upper (text_lower s) = sql_upper s.
Proof.
  induction s as [|c s IH]; [done|]. simpl. by rewrite upper_lower, IH.
Qed.

(** Two city texts that differ only in the case of their letters a-z and
    A-Z resolve alike: [resolve_city] submits the same statement text and
    gives the same reply for both. *)
Theorem resolve_city_ignores_case city city' cc db :
  text_lower city = text_lower city' →
  texts (resolve_city city cc db) = texts (resolve_city city' cc db) ∧
  outcome (resolve_city city cc db) = outcome (resolve_city city' cc db).
Proof.
  intros Hlow.
  assert (sql_upper city = sql_upper city') as Hup
    by (by rewrite <- (sql_upper_lower city), Hlow, sql_upper_lower).
  split; [by rewrite !resolve_city_run|].
  rewrite !resolve_city_outcome. do 4 f_equal.
  apply list_filter_iff. intros r. unfold city_matches. by rewrite Hup.
Qed.

Lemma city_matches_named city country r :
  city_matches city country r = Some true →
  is_Some (Stations.name r) ∧
  ∀ c, country = Some c → Stations.country r = Some c.
Proof.
  unfold city_matches, sql_like_null.
  destruct (Stations.name r) as [n|].
  - destruct country as [c|].
    + intros [_ Hc]%sql_and_true. split; [by eauto|].
      intros c' [= <-]. unfold sql_eq in Hc.
      destruct (Stations.country r) as [c'|]; [|done]. simpl in Hc.
      injection Hc as Hc. apply bool_decide_eq_true in Hc. by rewrite Hc.
    + intros _. split; [by eauto|done].
  - destruct country as [c|]; [|done].
    intros [Hn _]%sql_and_true. done.
Qed.

(** Whatever the city text and the country code, wildcards included,
    [resolve_city] submits one statement and returns: either [found: false]
    with its fixed reason, or a row of the station directory that has a
    name and, when a non-empty country code was given, that country. *)
Theorem resolve_city_never_fails city cc db :
  ∃ reply,
    resolve_city city cc db =
      (one_statement (resolve_city_sql (truthy_str cc))
         (resolve_city_params city cc), Ok reply) ∧
    match reply with
    | Found c =>
        ∃ r, r ∈ stations db ∧ c = city_of r ∧ is_Some (Stations.name r) ∧
             ∀ k, country_of cc = Some k → Stations.country r = Some k
    | NotFound reason => reason = "No station for that city"
    end.
Proof.
  eexists. split.
  - rewrite resolve_city_run, resolve_city_rows_params. reflexivity.
  - destruct (take 1 _) as [|r rest] eqn:Hr; simpl; [done|].
    apply first_sorted_elem in Hr.
    apply list_elem_of_filter in Hr as [Hm Hr].
    apply city_matches_named in Hm as [Hn Hc].
    exists r. split; [done|]. split; [done|]. split; done.
Qed.

Lemma contains_empty s : contains s "" = true.
Proof. by destruct s. Qed.

(** The empty city text matches every named station: [resolve_city ""]
    returns a named station, of the given country when a non-empty code
    is given, that is first in [ORDER BY name] among these, and [found:
    false] only when there is none. *)
Theorem resolve_city_blank_text cc db :
  match outcome (resolve_city "" cc db) with
  | Ok (Found c) =>
      ∃ r, r ∈ stations db ∧ c = city_of r ∧ is_Some (Stations.name r) ∧
           (∀ k, country_of cc = Some k → Stations.country r = Some k) ∧
           ∀ r', r' ∈ stations db → is_Some (Stations.name r') →
                 (∀ k, country_of cc = Some k → Stations.country r' = Some k) →
                 name_le r r'
  | Ok (NotFound reason) =>
      reason = "No station for that city" ∧
      ∀ r, r ∈ stations db → is_Some (Stations.name r) →
           ∃ k, country_of cc = Some k ∧ Stations.country r ≠ Some k
  | Raise _ => False
  end.
Proof.
  assert (∀ r, city_matches "" (country_of cc) r = Some true ↔
               is_Some (Stations.name r) ∧
               ∀ k, country_of cc = Some k → Stations.country r = Some k) as Hmatch.
  { intros r. rewrite (city_matches_spec "" (country_of cc) r eq_refl).
    unfold station_matches. destruct (Stations.name r) as [n|]; simpl.
    - rewrite contains_empty. simpl. destruct (country_of cc) as [k|].
      + rewrite bool_decide_eq_true. split.
        * intros Hk. split; [by eauto|]. by intros ? [= <-].
        * intros [_ Hk]. by apply Hk.
      + split; [|done]. intros _. split; [by eauto|done].
    - split; [done|]. by intros [[? ?] _]. }
  rewrite resolve_city_outcome.
  pose proof (head_of_sorted (R := name_le)
                (sql_where (city_matches "" (country_of cc)) (stations db))) as H.
  destruct (take 1 _) as [|r rest]; simpl.
  - split; [reflexivity|]. intros r Hr Hn.
    assert (¬ ∀ k, country_of cc = Some k → Stations.country r = Some k) as Hno.
    { intros Hk.
      assert (r ∈ sql_where (city_matches "" (country_of cc)) (stations db)) as Hin
        by (apply list_elem_of_filter; split; [by apply Hmatch|done]).
      rewrite H in Hin. by apply elem_of_nil in Hin. }
    destruct (country_of cc) as [k|].
    + exists k. split; [done|]. intros Hk. apply Hno. by intros ? [= <-].
    + exfalso. apply Hno. done.
  - destruct H as [Hr Hmin]. apply list_elem_of_filter in Hr as [Hm Hr].
    apply Hmatch in Hm as [Hn Hk].
    exists r. split; [done|]. split; [done|]. split; [done|]. split; [done|].
    intros r' Hr' Hn' Hk'. apply Hmin, list_elem_of_filter.
    split; [|done]. by apply Hmatch.
Qed.

(** ** What a series entry holds *)

Lemma asks_true k metrics : k ∈ metrics → asks k metrics = true.
Proof. unfold asks. apply bool_decide_eq_true_2. Qed.

Lemma py_ne_valid v x : sentinel_filter Temp v = Some x → py_ne v TEMP_SENTINEL = true.
Proof.
  destruct v as [y|]; [|done]. simpl. case_decide as Hy; [done|].
  intros _. unfold py_ne. apply bool_decide_eq_true_2. congruence.
Qed.

Lemma py_below_valid k c v x :
  (k = Prcp ∧ c = PRCP_SENTINEL) ∨ (k = Wdsp ∧ c = WDSP_SENTINEL) →
  sentinel_filter k v = Some x → py_below v c = true.
Proof.
  intros Hk. destruct v as [y|]; [|done]. unfold py_below.
  destruct Hk as [[-> ->]|[-> ->]]; simpl; case_decide; try done;
    intros _; by apply bool_decide_eq_true_2.
Qed.

Lemma series_item_reports metrics row :
  entry_reports metrics row (series_item metrics row).
Proof.
  unfold entry_reports, field_reports.
  rewrite series_item_temp_mean, series_item_temp_max, series_item_temp_min,
          series_item_rain_mm, series_item_wind_kmh.
  repeat split; intros Hk x Hx; rewrite (asks_true _ _ Hk);
    rewrite ?(py_ne_valid _ _ Hx),
            ?(py_below_valid Prcp PRCP_SENTINEL _ _ (or_introl (conj eq_refl eq_refl)) Hx),
            ?(py_below_valid Wdsp WDSP_SENTINEL _ _ (or_intror (conj eq_refl eq_refl)) Hx);
    simpl; by rewrite (sentinel_filter_Some _ _ _ Hx).
Qed.

(** Each entry of a series has its date, and for every requested metric
    whose reading that day is valid it has the field, holding the
    converted reading.  When [temp_mean_c] is requested (the default) every
    entry has it, as a number: the rows read all have a mean temperature. *)
Theorem series_reports_valid_readings stn wban s e metrics db out :
  returned (daily_weather_series stn wban s e metrics db) = Some out →
  ∃ lo hi, parse_date s = Some lo ∧ parse_date e = Some hi ∧
    Series.metrics out = chosen_metrics metrics ∧
    Forall2
      (λ row item,
         item !! "date" = Some (JStr (date_str (Gsod.date row))) ∧
         entry_reports (Series.metrics out) row item ∧
         ("temp_mean_c" ∈ Series.metrics out →
          ∃ t, Gsod.temp row = Some t ∧ t ≠ TEMP_SENTINEL ∧
               item !! "temp_mean_c" =
                 Some (JNum ((t - dec 32 1) * dec 5 1 / dec 9 1)%Qc)))
      (merge_sort by_date (qualifying stn wban lo hi db))
      (Series.data out).
Proof.
  intros (lo & hi & Hs & He & ->)%daily_weather_series_returned.
  exists lo, hi. split; [done|]. split; [done|]. split; [done|]. simpl.
  apply Forall2_fmap_r, Forall_Forall2_diag, Forall_forall. intros row Hrow.
  unfold compose. split; [apply series_item_date|].
  split; [apply series_item_reports|].
  intros Hk. rewrite merge_sort_Permutation in Hrow.
  unfold qualifying in Hrow. apply list_elem_of_filter in Hrow as [[t Ht] _].
  pose proof (sentinel_filter_Some _ _ _ Ht) as Hraw.
  exists t. split; [done|]. split.
  - intros ->. rewrite Hraw in Ht. by vm_compute in Ht.
  - rewrite series_item_temp_mean, (asks_true _ _ Hk), Hraw. done.
Qed.

Lemma asks_ext k m m' : (k ∈ m ↔ k ∈ m') → asks k m = asks k m'.
Proof. intros H. unfold asks. by apply bool_decide_ext. Qed.

Lemma series_item_ext m m' row :
  (∀ k, k ∈ m ↔ k ∈ m') → series_item m row = series_item m' row.
Proof.
  intros H. unfold series_item.
  by rewrite (asks_ext "temp_mean_c" m m'), (asks_ext "temp_max_c" m m'),
    (asks_ext "temp_min_c" m m'), (asks_ext "rain_mm" m m'),
    (asks_ext "wind_kmh" m m').
Qed.

(** The metric list is read as a set: two lists with the same members, in
    any order and with any repetitions, give the same entries. *)
Theorem series_ignores_metric_order stn wban s e m m' db :
  (∀ k, k ∈ chosen_metrics m ↔ k ∈ chosen_metrics m') →
  Series.data <$> returned (daily_weather_series stn wban s e m db) =
  Series.data <$> returned (daily_weather_series stn wban s e m' db).
Proof.
  intros H. rewrite !daily_weather_series_run. unfold returned, outcome. simpl.
  destruct (read_date s) as [lo|]; [|done].
  destruct (read_date e) as [hi|]; [|done]. simpl. f_equal.
  apply list_fmap_ext. intros i row _. by apply series_item_ext.
Qed.



(** Over a table of calendar days, a found reply of [yearly_max_temp]
    echoes the station and the year asked for, and its date text reads
    back as a day of that year. *)
Theorem hottest_day_reads_back stn wban year db h :
  Forall (λ r, valid_date (Gsod.date r) = true) (gsod db) →
  outcome (yearly_max_temp stn wban year db) = Ok (Found h) →
  Hottest.stn h = stn ∧ Hottest.wban h = wban ∧ Hottest.year h = year ∧
  ∃ d, parse_date (Hottest.date h) = Some d ∧ d_year d = year.
Proof.
  intros Hv (r & Hr & _ & ->)%yearly_max_temp_found.
  simpl. repeat (split; [done|]).
  apply list_elem_of_filter in Hr as [(_ & _ & Hy & _) Hr].
  exists (Gsod.date r). split; [|done].
  apply parse_date_str. by eapply Forall_forall in Hv.
Qed.

(** Every tool binds exactly the parameters its statement names: the
    [@name] placeholders of the submitted text, in text order, are the
    names of the bound parameters, none missing and none unused. *)
Theorem placeholders_are_bound :
  (∀ city cc db,
     Forall (λ q, placeholders (sent_text q) = bound_names q)
            (issued (resolve_city city cc db))) ∧
  (∀ stn wban s e db,
     Forall (λ q, placeholders (sent_text q) = bound_names q)
            (issued (range_weather_summary stn wban s e db))) ∧
  (∀ stn wban year db,
     Forall (λ q, placeholders (sent_text q) = bound_names q)
            (issued (yearly_max_temp stn wban year db))) ∧
  (∀ stn wban s e metrics db,
     Forall (λ q, placeholders (sent_text q) = bound_names q)
            (issued (daily_weather_series stn wban s e metrics db))).
Proof.
  repeat split; intros;
    rewrite ?resolve_city_run, ?range_weather_summary_run,
            ?yearly_max_temp_run, ?daily_weather_series_run;
    unfold issued; simpl fst; repeat constructor.
  unfold bound_names, resolve_city_params. simpl sent_text. simpl sent_params.
  destruct (truthy_str cc); vm_compute; reflexivity.
Qed.

(** Null readings in a series.  A requested maximum or minimum that is
    null in the table gives a field holding null (Python's [!=] lets
    [None] through), while a null precipitation or wind reading gives no
    field; a maximum or minimum equal to 9999.9 gives no field. *)
Theorem series_null_readings stn wban s e metrics db out :
  returned (daily_weather_series stn wban s e metrics db) = Some out →
  ∃ lo hi, parse_date s = Some lo ∧ parse_date e = Some hi ∧
    Forall2
      (λ row (item : gmap string json),
         ("temp_max_c" ∈ Series.metrics out → Gsod.max row = None →
          item !! "temp_max_c" = Some JNull) ∧
         ("temp_min_c" ∈ Series.metrics out → Gsod.min row = None →
          item !! "temp_min_c" = Some JNull) ∧
         (Gsod.prcp row = None → item !! "rain_mm" = None) ∧
         (Gsod.wdsp row = None → item !! "wind_kmh" = None) ∧
         (Gsod.max row = Some TEMP_SENTINEL → item !! "temp_max_c" = None) ∧
         (Gsod.min row = Some TEMP_SENTINEL → item !! "temp_min_c" = None))
      (merge_sort by_date (qualifying stn wban lo hi db))
      (Series.data out).
Proof.
  intros (lo & hi & Hs & He & ->)%daily_weather_series_returned.
  exists lo, hi. split; [done|]. split; [done|]. simpl.
  apply Forall2_fmap_r, Forall_Forall2_diag, Forall_forall. intros row _.
  unfold compose.
  rewrite series_item_temp_max, series_item_temp_min,
          series_item_rain_mm, series_item_wind_kmh.
  repeat split.
  - intros Hk ->. by rewrite (asks_true _ _ Hk).
  - intros Hk ->. by rewrite (asks_true _ _ Hk).
  - intros ->. by rewrite andb_false_r.
  - intros ->. by rewrite andb_false_r.
  - intros ->. by rewrite andb_false_r.
  - intros ->. by rewrite andb_false_r.
Qed.

(** ** The properties above on the sample dataset *)

Lemma sample_hottest_found :
  outcome (yearly_max_temp "037720" "99999" 2020 Sample.db) =
  Ok (Found sample_hottest).
Proof. reflexivity. Defined.

Lemma yearly_max_is_hottest_witness :
  (is_int64 2020 = true ∧
   outcome (yearly_max_temp "037720" "99999" 2020 Sample.db) =
     Ok (Found sample_hottest) ∧
   match outcome (yearly_max_temp "037720" "99999" 2020 Sample.db) with
   | Ok (Found h) =>
       ∃ r x, r ∈ hot_days "037720" "99999" 2020 Sample.db ∧
         Gsod.max r = Some x ∧ x ≠ TEMP_SENTINEL ∧
         h = {| Hottest.stn := "037720"; Hottest.wban := "99999";
                Hottest.year := 2020;
                Hottest.date := date_str (Gsod.date r);
                Hottest.max_c := Some ((x - dec 32 1) * dec 5 1 / dec 9 1)%Qc |} ∧
         ∀ r' y, r' ∈ hot_days "037720" "99999" 2020 Sample.db →
                 Gsod.max r' = Some y → (y ≤ x)%Qc
   | Ok (NotFound reason) =>
       hot_days "037720" "99999" 2020 Sample.db = [] ∧
       reason = "No data for that year"
   | Raise _ => False
   end) ∧
  (is_int64 (2 ^ 63) = false ∧
   yearly_max_temp "037720" "99999" (2 ^ 63) Sample.db =
   (one_statement yearly_max_sql (yearly_params "037720" "99999" (2 ^ 63)),
    Raise (BadRequest "Value out of range for INT64: year"))).
Proof.
  split.
  - split; [reflexivity|]. split; [exact sample_hottest_found|].
    exact (proj1 (yearly_max_is_hottest "037720" "99999" 2020 Sample.db) eq_refl).
  - split; [reflexivity|].
    exact (proj2 (yearly_max_is_hottest "037720" "99999" (2 ^ 63) Sample.db)
             eq_refl).
Defined.

Lemma hottest_day_reads_back_witness :
  Forall (λ r, valid_date (Gsod.date r) = true) (gsod Sample.db) ∧
  outcome (yearly_max_temp "037720" "99999" 2020 Sample.db) =
    Ok (Found sample_hottest) ∧
  Hottest.stn sample_hottest = "037720" ∧
  Hottest.wban sample_hottest = "99999" ∧
  Hottest.year sample_hottest = 2020 ∧
  ∃ d, parse_date (Hottest.date sample_hottest) = Some d ∧ d_year d = 2020.
Proof.
  split; [exact sample_valid_dates|]. split; [exact sample_hottest_found|].
  exact (hottest_day_reads_back "037720" "99999" 2020 Sample.db sample_hottest
           sample_valid_dates sample_hottest_found).
Defined.

Lemma resolve_city_ignores_case_witness :
  text_lower "london" = text_lower "LoNdOn" ∧
  outcome (resolve_city "LoNdOn" (Some "UK") Sample.db) =
    Ok (Found (city_of Sample.london)) ∧
  texts (resolve_city "london" (Some "UK") Sample.db) =
  texts (resolve_city "LoNdOn" (Some "UK") Sample.db) ∧
  outcome (resolve_city "london" (Some "UK") Sample.db) =
  outcome (resolve_city "LoNdOn" (Some "UK") Sample.db).
Proof.
  split; [reflexivity|]. split; [reflexivity|].
  exact (resolve_city_ignores_case "london" "LoNdOn" (Some "UK") Sample.db eq_refl).
Defined.

Lemma resolve_city_blank_text_witness :
  outcome (resolve_city "" (Some "UK") Sample.db) =
    Ok (Found (city_of Sample.london)) ∧
  match outcome (resolve_city "" (Some "UK") Sample.db) with
  | Ok (Found c) =>
      ∃ r, r ∈ stations Sample.db ∧ c = city_of r ∧ is_Some (Stations.name r) ∧
           (∀ k, country_of (Some "UK") = Some k → Stations.country r = Some k) ∧
           ∀ r', r' ∈ stations Sample.db → is_Some (Stations.name r') →
                 (∀ k, country_of (Some "UK") = Some k →
                       Stations.country r' = Some k) →
                 name_le r r'
  | Ok (NotFound reason) =>
      reason = "No station for that city" ∧
      ∀ r, r ∈ stations Sample.db → is_Some (Stations.name r) →
           ∃ k, country_of (Some "UK") = Some k ∧ Stations.country r ≠ Some k
  | Raise _ => False
  end.
Proof.
  split; [reflexivity|].
  exact (resolve_city_blank_text (Some "UK") Sample.db).
Defined.

Lemma series_reports_valid_readings_witness :
  returned (daily_weather_series "037720" "99999" "2020-01-01" "2020-01-31"
              (Some ["rain_mm"]) Sample.db) = Some Sample.rain_series ∧
  ∃ lo hi, parse_date "2020-01-01" = Some lo ∧ parse_date "2020-01-31" = Some hi ∧
    Series.metrics Sample.rain_series = chosen_metrics (Some ["rain_mm"]) ∧
    Forall2
      (λ row item,
         item !! "date" = Some (JStr (date_str (Gsod.date row))) ∧
         entry_reports (Series.metrics Sample.rain_series) row item ∧
         ("temp_mean_c" ∈ Series.metrics Sample.rain_series →
          ∃ t, Gsod.temp row = Some t ∧ t ≠ TEMP_SENTINEL ∧
               item !! "temp_mean_c" =
                 Some (JNum ((t - dec 32 1) * dec 5 1 / dec 9 1)%Qc)))
      (merge_sort by_date (qualifying "037720" "99999" lo hi Sample.db))
      (Series.data Sample.rain_series).
Proof.
  split; [exact sample_rain_series|].
  exact (series_reports_valid_readings "037720" "99999" "2020-01-01"
           "2020-01-31" (Some ["rain_mm"]) Sample.db Sample.rain_series
           sample_rain_series).
Defined.

Lemma same_metrics :
  ∀ k, k ∈ chosen_metrics (Some ["rain_mm"; "wind_kmh"]) ↔
       k ∈ chosen_metrics (Some ["wind_kmh"; "rain_mm"; "rain_mm"]).
Proof.
  intros k.
  change (k ∈ ["rain_mm"; "wind_kmh"] ↔ k ∈ ["wind_kmh"; "rain_mm"; "rain_mm"]).
  rewrite !elem_of_cons, !elem_of_nil. tauto.
Defined.

Lemma series_ignores_metric_order_witness :
  (∀ k, k ∈ chosen_metrics (Some ["rain_mm"; "wind_kmh"]) ↔
        k ∈ chosen_metrics (Some ["wind_kmh"; "rain_mm"; "rain_mm"])) ∧
  Series.data <$> returned (daily_weather_series "037720" "99999" "2020-01-01"
      "2020-01-31" (Some ["rain_mm"; "wind_kmh"]) Sample.db) =
  Series.data <$> returned (daily_weather_series "037720" "99999" "2020-01-01"
      "2020-01-31" (Some ["wind_kmh"; "rain_mm"; "rain_mm"]) Sample.db).
Proof.
  split; [exact same_metrics|].
  exact (series_ignores_metric_order "037720" "99999" "2020-01-01" "2020-01-31"
           (Some ["rain_mm"; "wind_kmh"]) (Some ["wind_kmh"; "rain_mm"; "rain_mm"])
           Sample.db same_metrics).
Defined.


Lemma series_null_readings_witness :
  (Gsod.max <$> gsod sample_gaps = [None; Some TEMP_SENTINEL] ∧
   Gsod.min <$> gsod sample_gaps = [None; Some TEMP_SENTINEL] ∧
   Gsod.prcp <$> gsod sample_gaps = [None; Some PRCP_SENTINEL] ∧
   Gsod.wdsp <$> gsod sample_gaps = [None; Some WDSP_SENTINEL]) ∧
  returned (daily_weather_series "037720" "99999" "2020-01-01" "2020-01-31"
              (Some gaps_metrics) sample_gaps) = Some gaps_series ∧
  (λ item : gmap string json,
     (item !! "temp_max_c", item !! "temp_min_c",
      item !! "rain_mm", item !! "wind_kmh")) <$> Series.data gaps_series =
    [ (Some JNull, Some JNull, None, None); (None, None, None, None) ] ∧
  ∃ lo hi, parse_date "2020-01-01" = Some lo ∧ parse_date "2020-01-31" = Some hi ∧
    Forall2
      (λ row (item : gmap string json),
         ("temp_max_c" ∈ Series.metrics gaps_series → Gsod.max row = None →
          item !! "temp_max_c" = Some JNull) ∧
         ("temp_min_c" ∈ Series.metrics gaps_series → Gsod.min row = None →
          item !! "temp_min_c" = Some JNull) ∧
         (Gsod.prcp row = None → item !! "rain_mm" = None) ∧
         (Gsod.wdsp row = None → item !! "wind_kmh" = None) ∧
         (Gsod.max row = Some TEMP_SENTINEL → item !! "temp_max_c" = None) ∧
         (Gsod.min row = Some TEMP_SENTINEL → item !! "temp_min_c" = None))
      (merge_sort by_date (qualifying "037720" "99999" lo hi sample_gaps))
      (Series.data gaps_series).
Proof.
  split; [repeat split|].
  split; [exact sample_gaps_series|]. split; [reflexivity|].
  exact (series_null_readings "037720" "99999" "2020-01-01" "2020-01-31"
           (Some gaps_metrics) sample_gaps gaps_series sample_gaps_series).
Defined.

Lemma sample_reversed_rows : gsod Sample.db ≡ₚ gsod sample_reversed.
Proof. symmetry. apply reverse_Permutation. Defined.

Lemma series_ignores_row_order_witness :
  keyed Sample.db ∧ gsod Sample.db ≡ₚ gsod sample_reversed ∧
  daily_weather_series "037720" "99999" "2020-01-01" "2020-01-31" None Sample.db =
  daily_weather_series "037720" "99999" "2020-01-01" "2020-01-31" None
    sample_reversed.
Proof.
  split; [exact sample_keyed|]. split; [exact sample_reversed_rows|].
  exact (series_ignores_row_order "037720" "99999" "2020-01-01" "2020-01-31"
           None Sample.db sample_reversed sample_keyed sample_reversed_rows).
Defined.

Lemma sample_qualifies :
  qualifying "037720" "99999" (Date 2020 1 1) (Date 2020 1 31) Sample.db ≠ [].
Proof. by_compute. Defined.

Lemma summary_extremes_attained_witness :
  parse_date "2020-01-01" = Some (Date 2020 1 1) ∧
  parse_date "2020-01-31" = Some (Date 2020 1 31) ∧
  qualifying "037720" "99999" (Date 2020 1 1) (Date 2020 1 31) Sample.db ≠ [] ∧
  ∃ summary coldest hottest low high,
    outcome (range_weather_summary "037720" "99999" "2020-01-01" "2020-01-31"
               Sample.db) = Ok (Found summary) ∧
    coldest ∈ qualifying "037720" "99999" (Date 2020 1 1) (Date 2020 1 31)
                Sample.db ∧
    Gsod.temp coldest = Some low ∧
    hottest ∈ qualifying "037720" "99999" (Date 2020 1 1) (Date 2020 1 31)
                Sample.db ∧
    Gsod.temp hottest = Some high ∧
    min_c (RangeSummary.temperature summary) = f_to_c (Gsod.temp coldest) ∧
    max_c (RangeSummary.temperature summary) = f_to_c (Gsod.temp hottest) ∧
    ∀ r t, r ∈ qualifying "037720" "99999" (Date 2020 1 1) (Date 2020 1 31)
                 Sample.db →
           Gsod.temp r = Some t → (low ≤ t)%Qc ∧ (t ≤ high)%Qc.
Proof.
  split; [reflexivity|]. split; [reflexivity|]. split; [exact sample_qualifies|].
  exact (summary_extremes_attained "037720" "99999" "2020-01-01" "2020-01-31"
           Sample.db (Date 2020 1 1) (Date 2020 1 31) eq_refl eq_refl
           sample_qualifies).
Defined.
